(** * Context Summarizer: a shallow embedding of [scripts/generate_summary.py]

    The development follows the methods of [ContextSummarizer] in the order of
    the source file.  The command-line entry point [main] is not part of it
    (its recovery branch, line 589, has an unbalanced parenthesis).  Python values are embedded as the inductive [pyval],
    exceptions as the error monad [result], the file system and the other
    collaborators (glob, git, psutil, the clock) as the record [World].

    Conventions.
    - A Python [str] is a Rocq [string] holding its UTF-8 bytes; slicing by
      characters ([py_str_take]) counts code points, not bytes.
    - A Python [float] is a primitive binary64 [float]; arithmetic is the
      kernel's IEEE arithmetic, as in CPython.
    - The text of a JSON document is its sequence of lexical tokens
      ([token]); the spelling of literals, escapes and white space is the
      [json] library's and is not modelled.
    - [re.findall], [repr] of floats and of containers belong to the Python
      runtime and are the fields of the class [PyRuntime]. *)

From Stdlib Require Import ZArith List String Ascii Lia Bool.
From Stdlib Require Import Floats Uint63 DecimalString.
From stdpp Require Import base gmap strings.
Import ListNotations.

Set Warnings "-register-all,-inexact-float".

Local Open Scope string_scope.
Local Open Scope Z_scope.
Local Open Scope list_scope.

(** ** Exceptions *)

Inductive exn : Type :=
| TypeError
| AttributeError
| KeyError
| ValueError
| IndexError
| ZeroDivisionError
| OverflowError
| JSONDecodeError
| OSError.

Inductive result (A : Type) : Type :=
| Ok (a : A)
| Raise (e : exn).

Arguments Ok {A} a.
Arguments Raise {A} e.

Definition rbind {A B : Type} (m : result A) (k : A -> result B) : result B :=
  match m with
  | Ok a => k a
  | Raise e => Raise e
  end.

Notation "'do' x <- m ; k" := (rbind m (fun x => k))
  (at level 10, x name, m at level 100, k at level 200,
   format "'[v' 'do'  x  <-  m ; '/' k ']'").

Definition is_raise {A : Type} (m : result A) : Prop :=
  match m with
  | Ok _ => False
  | Raise _ => True
  end.

(** [try: body except Exception: handler] *)
Definition try_except {A : Type} (body : result A) (handler : A) : A :=
  match body with
  | Ok a => a
  | Raise _ => handler
  end.

(** ** Python values *)

Inductive pyval : Type :=
| VNone
| VBool (b : bool)
| VInt (z : Z)
| VFloat (f : float)
| VStr (s : string)
| VList (items : list pyval)
| VDict (entries : list (string * pyval)).

Section pyval_induction.
Variable P : pyval -> Prop.
Hypothesis HNone : P VNone.
Hypothesis HBool : forall b, P (VBool b).
Hypothesis HInt : forall z, P (VInt z).
Hypothesis HFloat : forall f, P (VFloat f).
Hypothesis HStr : forall s, P (VStr s).
Hypothesis HList : forall items, Forall P items -> P (VList items).
Hypothesis HDict :
  forall entries, Forall (fun kv => P (snd kv)) entries -> P (VDict entries).

Fixpoint pyval_nested_ind (v : pyval) : P v :=
  match v with
  | VNone => HNone
  | VBool b => HBool b
  | VInt z => HInt z
  | VFloat f => HFloat f
  | VStr s => HStr s
  | VList items =>
      HList items
        ((fix go (l : list pyval) : Forall P l :=
            match l with
            | [] => List.Forall_nil P
            | x :: r => @List.Forall_cons _ P x r (pyval_nested_ind x) (go r)
            end) items)
  | VDict entries =>
      HDict entries
        ((fix go (l : list (string * pyval))
            : Forall (fun kv => P (snd kv)) l :=
            match l with
            | [] => List.Forall_nil _
            | kv :: r =>
                @List.Forall_cons _ (fun kv => P (snd kv)) kv r
                  (pyval_nested_ind (snd kv)) (go r)
            end) entries)
  end.
End pyval_induction.

(** A Python [dict] with string keys: an association list in insertion
    order.  [d[k] = v] keeps the position of a key that is already there. *)
Fixpoint dict_set (d : list (string * pyval)) (k : string) (v : pyval)
  : list (string * pyval) :=
  match d with
  | [] => [(k, v)]
  | (k', v') :: r =>
      if String.eqb k' k then (k', v) :: r else (k', v') :: dict_set r k v
  end.

Fixpoint dict_get (d : list (string * pyval)) (k : string) : option pyval :=
  match d with
  | [] => None
  | (k', v') :: r => if String.eqb k' k then Some v' else dict_get r k
  end.

(** [dict(pairs)] *)
Definition dict_of_pairs (ps : list (string * pyval)) : list (string * pyval) :=
  fold_left (fun d kv => dict_set d (fst kv) (snd kv)) ps [].

(** Values as Python can hold them: the keys of every dict are distinct. *)
Inductive wf_val : pyval -> Prop :=
| wf_VNone : wf_val VNone
| wf_VBool b : wf_val (VBool b)
| wf_VInt z : wf_val (VInt z)
| wf_VFloat f : wf_val (VFloat f)
| wf_VStr s : wf_val (VStr s)
| wf_VList items : Forall wf_val items -> wf_val (VList items)
| wf_VDict entries :
    List.NoDup (map fst entries) ->
    Forall (fun kv => wf_val (snd kv)) entries ->
    wf_val (VDict entries).

(** ** The [json] library on token sequences *)

Inductive token : Type :=
| TNull
| TTrue
| TFalse
| TInt (z : Z)
| TFloat (f : float)
| TStr (s : string)
| TLBracket
| TRBracket
| TLBrace
| TRBrace
| TComma
| TColon
| TInvalid.   (* characters that begin no JSON token *)

(** [json.dumps(v, indent=2, ensure_ascii=False)]: the token sequence of the
    document; indentation is white space between tokens. *)
Fixpoint json_dumps (v : pyval) : list token :=
  match v with
  | VNone => [TNull]
  | VBool true => [TTrue]
  | VBool false => [TFalse]
  | VInt z => [TInt z]
  | VFloat f => [TFloat f]
  | VStr s => [TStr s]
  | VList [] => [TLBracket; TRBracket]
  | VList (x :: r) =>
      TLBracket :: json_dumps x ++
      (fix more (l : list pyval) : list token :=
         match l with
         | [] => [TRBracket]
         | y :: l' => TComma :: json_dumps y ++ more l'
         end) r
  | VDict [] => [TLBrace; TRBrace]
  | VDict ((k, x) :: r) =>
      TLBrace :: TStr k :: TColon :: json_dumps x ++
      (fix more (l : list (string * pyval)) : list token :=
         match l with
         | [] => [TRBrace]
         | (k', y) :: l' => TComma :: TStr k' :: TColon :: json_dumps y ++ more l'
         end) r
  end.

(** The decoder of [json.loads]: recursive descent, with fuel. *)
Fixpoint parse_value (n : nat) (ts : list token) {struct n}
  : option (pyval * list token) :=
  match n with
  | O => None
  | S n' =>
      match ts with
      | TNull :: r => Some (VNone, r)
      | TTrue :: r => Some (VBool true, r)
      | TFalse :: r => Some (VBool false, r)
      | TInt z :: r => Some (VInt z, r)
      | TFloat f :: r => Some (VFloat f, r)
      | TStr s :: r => Some (VStr s, r)
      | TLBracket :: TRBracket :: r => Some (VList [], r)
      | TLBracket :: r =>
          match parse_items n' r with
          | Some (items, r') => Some (VList items, r')
          | None => None
          end
      | TLBrace :: TRBrace :: r => Some (VDict [], r)
      | TLBrace :: r =>
          match parse_members n' r with
          | Some (pairs, r') => Some (VDict (dict_of_pairs pairs), r')
          | None => None
          end
      | _ => None
      end
  end
with parse_items (n : nat) (ts : list token) {struct n}
  : option (list pyval * list token) :=
  match n with
  | O => None
  | S n' =>
      match parse_value n' ts with
      | Some (v, TRBracket :: r) => Some ([v], r)
      | Some (v, TComma :: r) =>
          match parse_items n' r with
          | Some (vs, r') => Some (v :: vs, r')
          | None => None
          end
      | _ => None
      end
  end
with parse_members (n : nat) (ts : list token) {struct n}
  : option (list (string * pyval) * list token) :=
  match n with
  | O => None
  | S n' =>
      match ts with
      | TStr k :: TColon :: r =>
          match parse_value n' r with
          | Some (v, TRBrace :: r') => Some ([(k, v)], r')
          | Some (v, TComma :: r') =>
              match parse_members n' r' with
              | Some (ps, r'') => Some ((k, v) :: ps, r'')
              | None => None
              end
          | _ => None
          end
      | _ => None
      end
  end.

(** [json.loads(text)]: one value, then the end of the text. *)
Definition json_loads (ts : list token) : result pyval :=
  match parse_value (S (length ts)) ts with
  | Some (v, []) => Ok v
  | _ => Raise JSONDecodeError
  end.

Definition dump_more_items : list pyval -> list token :=
  fix more (l : list pyval) : list token :=
    match l with
    | [] => [TRBracket]
    | y :: l' => TComma :: json_dumps y ++ more l'
    end.

Definition dump_more_members : list (string * pyval) -> list token :=
  fix more (l : list (string * pyval)) : list token :=
    match l with
    | [] => [TRBrace]
    | (k', y) :: l' => TComma :: TStr k' :: TColon :: json_dumps y ++ more l'
    end.

(** ** Strings *)

Definition nl : string := String (ascii_of_nat 10) EmptyString.

(** [str(z)] for an [int] *)
Definition str_of_Z (z : Z) : string :=
  DecimalString.NilZero.string_of_int (Z.to_int z).

(** [sep.join(parts)] on strings *)
Fixpoint str_join (sep : string) (parts : list string) : string :=
  match parts with
  | [] => ""
  | [p] => p
  | p :: rest => p ++ sep ++ str_join sep rest
  end.

(** [s.count(needle)]: occurrences that do not overlap, left to right;
    [skip] is the number of characters still covered by the last match. *)
Fixpoint str_count_from (needle s : string) (skip : nat) : Z :=
  match s with
  | EmptyString => 0
  | String _ s' =>
      match skip with
      | S k => str_count_from needle s' k
      | O =>
          if String.prefix needle s
          then 1 + str_count_from needle s' (String.length needle - 1)
          else str_count_from needle s' 0
      end
  end.

Definition str_count (s needle : string) : Z := str_count_from needle s 0.

(** White space as [str.strip] sees it ([str.isspace] of one character).
    The strings hold UTF-8, so a white-space character is one, two or three
    bytes long.  In one byte: U+0009 to U+000D, U+001C to U+001F and the
    space. *)
Definition is_space (c : ascii) : bool :=
  let n := nat_of_ascii c in
  ((9 <=? n) && (n <=? 13) || (28 <=? n) && (n <=? 32))%nat.

(** In two bytes: U+0085 (C2 85) and U+00A0 (C2 A0). *)
Definition is_space2 (c d : ascii) : bool :=
  let n := nat_of_ascii c in
  let m := nat_of_ascii d in
  ((n =? 194) && ((m =? 133) || (m =? 160)))%nat.

(** In three bytes: U+1680 (E1 9A 80), U+2000 to U+200A (E2 80 80 to
    E2 80 8A), U+2028, U+2029 and U+202F (E2 80 A8, A9 and AF), U+205F
    (E2 81 9F) and U+3000 (E3 80 80). *)
Definition is_space3 (c d e : ascii) : bool :=
  let n := nat_of_ascii c in
  let m := nat_of_ascii d in
  let k := nat_of_ascii e in
  ((n =? 225) && (m =? 154) && (k =? 128)
   || (n =? 226) && (m =? 128)
      && ((128 <=? k) && (k <=? 138) || (k =? 168) || (k =? 169) || (k =? 175))
   || (n =? 226) && (m =? 129) && (k =? 159)
   || (n =? 227) && (m =? 128) && (k =? 128))%nat.

(** What follows the white-space character that starts [s], if one does. *)
Definition space_prefix (s : string) : option string :=
  match s with
  | String c s1 =>
      if is_space c then Some s1
      else match s1 with
           | String d s2 =>
               if is_space2 c d then Some s2
               else match s2 with
                    | String e s3 => if is_space3 c d e then Some s3 else None
                    | EmptyString => None
                    end
           | EmptyString => None
           end
  | EmptyString => None
  end.

Fixpoint lstrip (s : string) : string :=
  match s with
  | String c s1 =>
      if is_space c then lstrip s1
      else match s1 with
           | String d s2 =>
               if is_space2 c d then lstrip s2
               else match s2 with
                    | String e s3 => if is_space3 c d e then lstrip s3 else s
                    | EmptyString => s
                    end
           | EmptyString => s
           end
  | EmptyString => EmptyString
  end.

(** From the right: a suffix made of white space only is dropped, and
    [lstrip] of a suffix is empty exactly when it is one. *)
Fixpoint rstrip (s : string) : string :=
  match s with
  | EmptyString => EmptyString
  | String c s' =>
      match lstrip s with
      | EmptyString => EmptyString
      | _ => String c (rstrip s')
      end
  end.

(** [s.strip()] *)
Definition py_strip (s : string) : string := rstrip (lstrip s).

(** [s.split("\n")] *)
Fixpoint split_lines (s : string) : list string :=
  match s with
  | EmptyString => [EmptyString]
  | String c s' =>
      if Ascii.eqb c (ascii_of_nat 10) then EmptyString :: split_lines s'
      else match split_lines s' with
           | l :: ls => String c l :: ls
           | [] => [String c EmptyString]
           end
  end.

(** A byte that continues a UTF-8 sequence (10xxxxxx). *)
Definition is_continuation (c : ascii) : bool :=
  let n := nat_of_ascii c in ((128 <=? n) && (n <? 192))%nat.

(** The bytes of the code point that starts [s], and what follows it. *)
Fixpoint take_continuation (s : string) : string * string :=
  match s with
  | String c s' =>
      if is_continuation c
      then let '(h, t) := take_continuation s' in (String c h, t)
      else (EmptyString, s)
  | EmptyString => (EmptyString, EmptyString)
  end.

(** [s[:n]]: the first [n] characters (code points) of [s]. *)
Fixpoint py_str_take (n : nat) (s : string) : string :=
  match s with
  | EmptyString => EmptyString
  | String c s' =>
      if is_continuation c then String c (py_str_take n s')
      else match n with
           | O => EmptyString
           | S n' => String c (py_str_take n' s')
           end
  end.

(** [list(s)]: the characters of [s], each a string. *)
Fixpoint str_chars_fuel (fuel : nat) (s : string) : list string :=
  match fuel, s with
  | S fuel', String c s' =>
      let '(h, t) := take_continuation s' in
      String c h :: str_chars_fuel fuel' t
  | _, _ => []
  end.

Definition str_chars (s : string) : list string :=
  str_chars_fuel (String.length s) s.

(** ** Floats *)

(** [float(z)], rounded to nearest even; [None] where CPython raises
    [OverflowError]. *)
Definition float_of_Z (z : Z) : option float :=
  let f := SF2Prim (binary_normalize prec emax z 0 false) in
  if PrimFloat.is_infinity f then None else Some f.

(** [a / b] on two [int]s: the quotient rounded once, to nearest even, as
    CPython computes it.  The quotient is taken with 56 or more significant
    bits and a sticky bit, and [binary_normalize] rounds it to binary64. *)
Definition int_truediv (a b : Z) : result float :=
  if b =? 0 then Raise ZeroDivisionError
  else
    let negative := xorb (a <? 0) (b <? 0) in
    let a' := Z.abs a in
    let b' := Z.abs b in
    let k := Z.max 0 (Z.log2 b' - Z.log2 a' + 56) in
    let q := (a' * 2 ^ k) / b' in
    let sticky := if (a' * 2 ^ k) mod b' =? 0 then 0 else 1 in
    let m := 2 * q + sticky in
    let f := SF2Prim (binary_normalize prec emax
                        (if negative then - m else m) (- k - 1) negative) in
    if PrimFloat.is_infinity f then Raise OverflowError else Ok f.

(** The integer nearest to [m * 2^e], ties to even. *)
Definition round_half_even (m : positive) (e : Z) : Z :=
  if 0 <=? e then Z.pos m * 2 ^ e
  else
    let d := 2 ^ (- e) in
    let q := Z.pos m / d in
    let r := Z.pos m mod d in
    if 2 * r <? d then q
    else if d <? 2 * r then q + 1
    else if Z.even q then q else q + 1.

(** [format(f, ".0f")] *)
Definition format_f0 (f : float) : string :=
  match Prim2SF f with
  | S754_nan => "nan"
  | S754_infinity s => if s then "-inf" else "inf"
  | S754_zero s => if s then "-0" else "0"
  | S754_finite s m e =>
      (if s then "-" else "") ++ str_of_Z (round_half_even m e)
  end.

(** [format(f, ".0%")]: the value times 100, no decimals, a percent sign. *)
Definition format_percent_float (f : float) : string :=
  format_f0 (f * 100)%float ++ "%".

(** ** Operations on Python values *)

(** What the embedding takes from the Python runtime as given: [repr] of a
    float, [repr] of a list or dict, and the matches of the pattern of
    [_load_tech_decisions], [re.findall(r"[-•]\s*(.+?):\s*(.+)", content,
    re.MULTILINE)]. *)
Class PyRuntime : Type := {
  float_repr : float -> string;
  container_repr : pyval -> string;
  re_findall_decisions : string -> list (string * string)
}.

(** [str(v)], which is also how an f-string field without a format
    specification renders [v]. *)
Definition py_str `{PyRuntime} (v : pyval) : string :=
  match v with
  | VNone => "None"
  | VBool true => "True"
  | VBool false => "False"
  | VInt z => str_of_Z z
  | VFloat f => float_repr f
  | VStr s => s
  | VList _ | VDict _ => container_repr v
  end.

(** [bool(v)] *)
Definition py_truthy (v : pyval) : bool :=
  match v with
  | VNone => false
  | VBool b => b
  | VInt z => negb (z =? 0)
  | VFloat f => negb (PrimFloat.eqb f 0)
  | VStr s => negb (String.eqb s "")
  | VList items => match items with [] => false | _ => true end
  | VDict entries => match entries with [] => false | _ => true end
  end.

(** [v[key]] for a string [key] *)
Definition py_getitem (v : pyval) (key : string) : result pyval :=
  match v with
  | VDict entries =>
      match dict_get entries key with
      | Some x => Ok x
      | None => Raise KeyError
      end
  | _ => Raise TypeError
  end.

(** [v[0]] *)
Definition py_first (v : pyval) : result pyval :=
  match v with
  | VList (x :: _) => Ok x
  | VList [] => Raise IndexError
  | VStr s =>
      match str_chars s with
      | c :: _ => Ok (VStr c)
      | [] => Raise IndexError
      end
  | VDict _ => Raise KeyError
  | _ => Raise TypeError
  end.

(** [v[:n]]; a dict rejects the slice as a key ([TypeError] up to
    CPython 3.11, [KeyError] from 3.12 on). *)
Definition py_slice_to (n : nat) (v : pyval) : result pyval :=
  match v with
  | VList items => Ok (VList (firstn n items))
  | VStr s => Ok (VStr (py_str_take n s))
  | _ => Raise TypeError
  end.

(** The elements a [for] loop or a comprehension draws from [v]. *)
Definition py_iter (v : pyval) : result (list pyval) :=
  match v with
  | VList items => Ok items
  | VStr s => Ok (map VStr (str_chars s))
  | VDict entries => Ok (map (fun kv => VStr (fst kv)) entries)
  | _ => Raise TypeError
  end.

(** [v == s] for a string literal [s] *)
Definition py_eq_str (v : pyval) (s : string) : bool :=
  match v with
  | VStr s' => String.eqb s' s
  | _ => false
  end.

(** [format(v, ".0%")]: numbers only; [str] raises [ValueError], the other
    types [TypeError]. *)
Definition format_percent (v : pyval) : result string :=
  match v with
  | VFloat f => Ok (format_percent_float f)
  | VInt z =>
      match float_of_Z z with
      | Some f => Ok (format_percent_float f)
      | None => Raise OverflowError
      end
  | VBool b => Ok (format_percent_float (if b then 1 else 0))
  | VStr _ => Raise ValueError
  | _ => Raise TypeError
  end.

(** [sep.join(parts)] on values: every part must be a [str]. *)
Fixpoint py_join_strs (parts : list pyval) : result (list string) :=
  match parts with
  | [] => Ok []
  | VStr s :: rest => do ss <- py_join_strs rest; Ok (s :: ss)
  | _ :: _ => Raise TypeError
  end.

Definition py_join (sep : string) (parts : list pyval) : result string :=
  do ss <- py_join_strs parts; Ok (str_join sep ss).

(** Monadic iteration over a list, threading the accumulated lines. *)
Fixpoint for_each {A S : Type} (xs : list A) (body : A -> S -> result S)
  (st : S) : result S :=
  match xs with
  | [] => Ok st
  | x :: rest => do st' <- body x st; for_each rest body st'
  end.

(** ** Data classes *)

Record ProjectStatus : Type := {
  name : pyval;
  description : pyval;
  phase : pyval;
  total_tasks : pyval;
  completed_tasks : pyval;
  completion_rate : pyval;
  pending_tasks : pyval
}.

Record TechDecision : Type := {
  decision : string;
  status : string;   (* confirmed, pending, rejected *)
  reason : string
}.

Record CodeContext : Type := {
  current_files : list string;
  recent_changes : list string;
  architecture_patterns : list string
}.

Record ConversationHistory : Type := {
  key_discussions : list string;
  confirmed_items : list string;
  pending_confirmations : list string
}.

Record RecoveryInstructions : Type := {
  read_first : list string;
  continue_from : string;
  key_context : string
}.

(** The fields of [ContextSummary] hold whatever the constructor is given:
    a dataclass does not check its annotations. *)
Record ContextSummary : Type := {
  version : pyval;
  generated_at : pyval;
  session_id : pyval;
  project : pyval;
  tech_decisions : pyval;
  code_context : pyval;
  conversation_history : pyval;
  recovery_instructions : pyval
}.

Definition vstrs (l : list string) : pyval := VList (map VStr l).

(** [asdict] on each data class: the fields in declaration order. *)
Definition asdict_ProjectStatus (p : ProjectStatus) : pyval :=
  VDict [("name", name p); ("description", description p); ("phase", phase p);
         ("total_tasks", total_tasks p);
         ("completed_tasks", completed_tasks p);
         ("completion_rate", completion_rate p);
         ("pending_tasks", pending_tasks p)].

Definition asdict_TechDecision (d : TechDecision) : pyval :=
  VDict [("decision", VStr (decision d)); ("status", VStr (status d));
         ("reason", VStr (reason d))].

Definition asdict_CodeContext (c : CodeContext) : pyval :=
  VDict [("current_files", vstrs (current_files c));
         ("recent_changes", vstrs (recent_changes c));
         ("architecture_patterns", vstrs (architecture_patterns c))].

Definition asdict_ConversationHistory (h : ConversationHistory) : pyval :=
  VDict [("key_discussions", vstrs (key_discussions h));
         ("confirmed_items", vstrs (confirmed_items h));
         ("pending_confirmations", vstrs (pending_confirmations h))].

Definition asdict_RecoveryInstructions (r : RecoveryInstructions) : pyval :=
  VDict [("read_first", vstrs (read_first r));
         ("continue_from", VStr (continue_from r));
         ("key_context", VStr (key_context r))].

Definition asdict_ContextSummary (s : ContextSummary) : pyval :=
  VDict [("version", version s); ("generated_at", generated_at s);
         ("session_id", session_id s); ("project", project s);
         ("tech_decisions", tech_decisions s);
         ("code_context", code_context s);
         ("conversation_history", conversation_history s);
         ("recovery_instructions", recovery_instructions s)].

Definition ProjectStatus_fields : list string :=
  ["name"; "description"; "phase"; "total_tasks"; "completed_tasks";
   "completion_rate"; "pending_tasks"].

Definition ContextSummary_fields : list string :=
  ["version"; "generated_at"; "session_id"; "project"; "tech_decisions";
   "code_context"; "conversation_history"; "recovery_instructions"].

(** Every keyword of a call that unpacks [kwargs] names a field of the
    class. *)
Definition keywords_known (fields : list string) (kwargs : list (string * pyval))
  : bool :=
  forallb (fun kv => existsb (String.eqb (fst kv)) fields) kwargs.

(** [ProjectStatus] called on the unpacked dict: [TypeError] on an
    unexpected keyword and on a missing field. *)
Definition ProjectStatus_new (kwargs : list (string * pyval))
  : result ProjectStatus :=
  if keywords_known ProjectStatus_fields kwargs then
    match dict_get kwargs "name", dict_get kwargs "description",
          dict_get kwargs "phase", dict_get kwargs "total_tasks",
          dict_get kwargs "completed_tasks", dict_get kwargs "completion_rate",
          dict_get kwargs "pending_tasks" with
    | Some n, Some d, Some ph, Some t, Some c, Some r, Some pt =>
        Ok {| name := n; description := d; phase := ph; total_tasks := t;
              completed_tasks := c; completion_rate := r; pending_tasks := pt |}
    | _, _, _, _, _, _, _ => Raise TypeError
    end
  else Raise TypeError.

(** [ContextSummary] called on the unpacked [data], which must be a
    mapping whose keys are exactly the eight fields. *)
Definition ContextSummary_new (data : pyval) : result ContextSummary :=
  match data with
  | VDict kwargs =>
      if keywords_known ContextSummary_fields kwargs then
        match dict_get kwargs "version", dict_get kwargs "generated_at",
              dict_get kwargs "session_id", dict_get kwargs "project",
              dict_get kwargs "tech_decisions", dict_get kwargs "code_context",
              dict_get kwargs "conversation_history",
              dict_get kwargs "recovery_instructions" with
        | Some v, Some g, Some s, Some p, Some t, Some c, Some h, Some r =>
            Ok {| version := v; generated_at := g; session_id := s;
                  project := p; tech_decisions := t; code_context := c;
                  conversation_history := h; recovery_instructions := r |}
        | _, _, _, _, _, _, _, _ => Raise TypeError
        end
      else Raise TypeError
  | _ => Raise TypeError
  end.

(** [getattr(summary, attr)]: the eight fields and nothing else. *)
Definition ContextSummary_getattr (s : ContextSummary) (attr : string)
  : result pyval :=
  match dict_get (match asdict_ContextSummary s with
                  | VDict fields => fields
                  | _ => []
                  end) attr with
  | Some v => Ok v
  | None => Raise AttributeError
  end.

(** ** The world outside the program *)

(** An entry of the file system.  A regular file is recorded in the view
    the program takes of it: [Text] for the documents it reads as
    characters, [Json] for the documents it hands to [json.load] or writes
    with [json.dumps]; read through the other view, or when [Unreadable],
    a file raises. *)
Inductive fs_entry : Type :=
| Dir
| Unreadable
| Text (content : string)
| Json (content : list token).

Record World : Type := {
  cwd : string;                               (* os.getcwd() *)
  utc_now : string;       (* datetime.now(timezone.utc).isoformat() *)
  fs : gmap string fs_entry;
  glob : string -> string -> list string;
       (* Path(root).glob(pattern): the matches, relative to root *)
  git_status : string -> result (Z * string);
       (* git status --short in a directory: return code and output *)
  psutil_rss : result Z   (* psutil.Process().memory_info().rss *)
}.

(** [os.path.join(a, b)] *)
Definition os_path_join (a b : string) : string :=
  if String.prefix "/" b then b
  else if String.eqb a "" then b
  else if String.eqb (String.substring (String.length a - 1) 1 a) "/"
       then a ++ b
       else a ++ "/" ++ b.

(** [os.path.exists(p)], [Path.exists] *)
Definition path_exists (w : World) (p : string) : bool :=
  match fs w !! p with
  | Some _ => true
  | None => false
  end.

(** [Path.is_file] *)
Definition is_file (w : World) (p : string) : bool :=
  match fs w !! p with
  | Some Dir | None => false
  | Some _ => true
  end.

(** [open(p, "r", encoding="utf-8").read()] *)
Definition read_text (w : World) (p : string) : result string :=
  match fs w !! p with
  | Some (Text s) => Ok s
  | _ => Raise OSError
  end.

(** [json.load(open(p, "r", encoding="utf-8"))] *)
Definition read_json (w : World) (p : string) : result pyval :=
  match fs w !! p with
  | Some (Json ts) => json_loads ts
  | Some (Text _) => Raise JSONDecodeError
  | _ => Raise OSError
  end.

(** [open(p, "w", encoding="utf-8").write(...)] for a file [p] of the
    directory [parent]: the directory must be there, and [p] must not be a
    directory or a file that cannot be opened. *)
Definition write_file (w : World) (parent p : string) (e : fs_entry)
  : result World :=
  match fs w !! parent, fs w !! p with
  | Some Dir, Some Dir | Some Dir, Some Unreadable => Raise OSError
  | Some Dir, _ =>
      Ok {| cwd := cwd w; utc_now := utc_now w; fs := <[p := e]> (fs w);
            glob := glob w; git_status := git_status w;
            psutil_rss := psutil_rss w |}
  | _, _ => Raise OSError
  end.

(** ** The summary generator *)

Record ContextSummarizer : Type := {
  project_root : string;
  timestamp : string
}.

(** [a or b] on an optional string argument *)
Definition str_or (a : option string) (b : string) : string :=
  match a with
  | Some s => if String.eqb s "" then b else s
  | None => b
  end.

Definition __init__ (w : World) (root : option string) : ContextSummarizer :=
  {| project_root := str_or root (cwd w);
     timestamp := utc_now w |}.

(** *** [_load_project_status] *)

Definition default_project : list (string * pyval) :=
  [("name", VStr "Project");
   ("description", VStr "A coding project");
   ("phase", VInt 1);
   ("total_tasks", VInt 50);
   ("completed_tasks", VInt 0);
   ("pending_tasks", VList [])].

(** The body of the [try] over AGENTS.md, once the file is read: the dict
    [project] as the two assignments leave it.  When the division raises,
    the first assignment has been made and the second has not.  The phase
    pattern is searched for and its match is not used. *)
Definition parse_agents (content : string) (project : list (string * pyval))
  : list (string * pyval) :=
  let completed := str_count content "[x]" + str_count content "✅" in
  let total := str_count content "任务" + str_count content "Task" in
  let project := dict_set project "completed_tasks" (VInt completed) in
  let rate :=
    if 0 <? total
    then do q <- int_truediv completed (Z.max total 1); Ok (VFloat q)
    else Ok (VInt 0) in
  match rate with
  | Ok r => dict_set project "completion_rate" r
  | Raise _ => project
  end.

(** One element of the sequence given to [dict.update]: a key and a value.
    The key is [None] here when it is hashable and not a [str]. *)
Definition update_pair (item : pyval) : result (option string * pyval) :=
  match item with
  | VList [k; v] =>
      match k with
      | VStr s => Ok (Some s, v)
      | VList _ | VDict _ => Raise TypeError
      | _ => Ok (None, v)
      end
  | VList _ => Raise ValueError
  | VStr s =>
      match str_chars s with
      | [a; b] => Ok (Some a, VStr b)
      | _ => Raise ValueError
      end
  | VDict [(k1, _); (k2, _)] => Ok (Some k1, VStr k2)
  | VDict _ => Raise ValueError
  | _ => Raise TypeError
  end.

(** [d.update(items)] inside [try: ... except Exception: pass]: the pairs
    are stored one by one until one of them raises.  The boolean records
    that a key that is not a [str] went into the dict. *)
Fixpoint dict_update_seq (d : list (string * pyval)) (foreign : bool)
  (items : list pyval) : list (string * pyval) * bool :=
  match items with
  | [] => (d, foreign)
  | item :: rest =>
      match update_pair item with
      | Ok (Some k, v) => dict_update_seq (dict_set d k v) foreign rest
      | Ok (None, _) => dict_update_seq d true rest
      | Raise _ => (d, foreign)
      end
  end.

Definition dict_update (d : list (string * pyval)) (other : pyval)
  : list (string * pyval) * bool :=
  match other with
  | VDict entries =>
      (fold_left (fun d kv => dict_set d (fst kv) (snd kv)) entries d, false)
  | VList items => dict_update_seq d false items
  | VStr s => dict_update_seq d false (map VStr (str_chars s))
  | _ => (d, false)
  end.

Definition _load_project_status (self : ContextSummarizer) (w : World)
  : result ProjectStatus :=
  let agents_path := os_path_join (project_root self) "AGENTS.md" in
  let project := default_project in
  let project :=
    if path_exists w agents_path
    then try_except
           (do content <- read_text w agents_path;
            Ok (parse_agents content project))
           project
    else project in
  let config_path :=
    os_path_join (os_path_join (project_root self) "config") "project.json" in
  let '(project, foreign) :=
    if path_exists w config_path
    then try_except
           (do config <- read_json w config_path;
            Ok (dict_update project config))
           (project, false)
    else (project, false) in
  if foreign then Raise TypeError   (* keywords must be strings *)
  else ProjectStatus_new project.

(** *** [_load_tech_decisions] *)

Definition default_decisions : list TechDecision :=
  [{| decision := "Standard architecture";
      status := "confirmed";
      reason := "Default decision for new projects" |}].

Definition _load_tech_decisions `{PyRuntime} (self : ContextSummarizer)
  (w : World) : list TechDecision :=
  let decisions_path :=
    os_path_join (os_path_join (project_root self) "docs") "tech_decisions.md" in
  if negb (path_exists w decisions_path) then default_decisions
  else try_except
         (do content <- read_text w decisions_path;
          let patterns := re_findall_decisions content in
          let decisions :=
            map (fun dr => {| decision := py_strip (fst dr);
                              status := "confirmed";
                              reason := py_strip (snd dr) |})
                (firstn 10 patterns) in
          Ok (match decisions with
              | [] => default_decisions
              | _ => decisions
              end))
         default_decisions.

(** *** [_load_code_context] and its three collectors *)

Definition src_patterns : list string := ["src/**/*.py"; "src/**/*"].
Definition config_patterns : list string := ["config/*.json"; "config/*.yaml"].

Definition _list_current_files (self : ContextSummarizer) (w : World)
  : list string :=
  let root := project_root self in
  let files := [] in
  let files :=
    fold_left (fun files pattern =>
      fold_left (fun files rel_path =>
        if is_file w (os_path_join root rel_path)
        then if (length files <? 10)%nat then files ++ [rel_path] else files
        else files)
        (glob w root pattern) files)
      src_patterns files in
  let files :=
    fold_left (fun files pattern =>
      fold_left (fun files rel_path =>
        if is_file w (os_path_join root rel_path)
        then files ++ [rel_path]
        else files)
        (glob w root pattern) files)
      config_patterns files in
  firstn 15 files.

Definition _get_recent_changes (self : ContextSummarizer) (w : World)
  : list string :=
  let changes :=
    try_except
      (do res <- git_status w (project_root self);
       let '(returncode, stdout) := res in
       if returncode =? 0
       then let lines := firstn 5 (split_lines (py_strip stdout)) in
            Ok (fold_left (fun changes line =>
                   if negb (String.eqb (py_strip line) "")
                   then changes ++ [py_strip line] else changes)
                  lines [])
       else Ok [])
      [] in
  firstn 5 changes.

Definition architecture_dirs : list string :=
  ["src"; "tests"; "config"; "docs"; "scripts"].

Definition architecture_files : list (string * string) :=
  [("requirements.txt", "Python project");
   ("package.json", "Node.js project");
   ("pyproject.toml", "Python (Poetry)");
   ("docker-compose.yml", "Docker");
   ("AGENTS.md", "OpenCode workflow")].

Definition _detect_architecture (self : ContextSummarizer) (w : World)
  : list string :=
  let root := project_root self in
  let patterns :=
    fold_left (fun patterns d =>
      if path_exists w (os_path_join root d) then patterns ++ [d] else patterns)
      architecture_dirs [] in
  let patterns :=
    fold_left (fun patterns fp =>
      if path_exists w (os_path_join root (fst fp))
      then patterns ++ [snd fp] else patterns)
      architecture_files patterns in
  firstn 5 patterns.

Definition _load_code_context (self : ContextSummarizer) (w : World)
  : CodeContext :=
  {| current_files := _list_current_files self w;
     recent_changes := _get_recent_changes self w;
     architecture_patterns := _detect_architecture self w |}.

Definition _load_conversation_history : ConversationHistory :=
  {| key_discussions := []; confirmed_items := []; pending_confirmations := [] |}.

(** *** Recovery instructions *)

Definition _get_continue_from `{PyRuntime} (p : ProjectStatus) : result string :=
  if py_truthy (pending_tasks p) then
    do next_task <- py_first (pending_tasks p);
    do id <- py_getitem next_task "id";
    do nm <- py_getitem next_task "name";
    Ok ("Task " ++ py_str id ++ ": " ++ py_str nm)%string
  else Ok ("Phase " ++ py_str (phase p) ++ " completion")%string.

Definition _get_key_context `{PyRuntime} (p : ProjectStatus) : result string :=
  do pct <- format_percent (completion_rate p);
  Ok (py_str (name p) ++ " - Phase " ++ py_str (phase p) ++ ", " ++ pct
      ++ " complete")%string.

(** *** [generate], lines 113-136: the record that is rendered *)

Definition build_summary `{PyRuntime} (self : ContextSummarizer) (w : World)
  (sid : string) : result ContextSummary :=
  do p <- _load_project_status self w;
  let decisions := _load_tech_decisions self w in
  let code := _load_code_context self w in
  let history := _load_conversation_history in
  do cf <- _get_continue_from p;
  do kc <- _get_key_context p;
  let recovery :=
    {| read_first := ["README.md"; "AGENTS.md"];
       continue_from := cf;
       key_context := kc |} in
  Ok {| version := VStr "1.0";
        generated_at := VStr (timestamp self);
        session_id := VStr sid;
        project := asdict_ProjectStatus p;
        tech_decisions := VList (map asdict_TechDecision decisions);
        code_context := asdict_CodeContext code;
        conversation_history := asdict_ConversationHistory history;
        recovery_instructions := asdict_RecoveryInstructions recovery |}.

(** *** Rendering *)

Definition _to_json (summary : ContextSummary) : list token :=
  json_dumps (asdict_ContextSummary summary).

(** [[f(x) for x in xs]] where [f] may raise *)
Fixpoint map_result {A B : Type} (f : A -> result B) (xs : list A)
  : result (list B) :=
  match xs with
  | [] => Ok []
  | x :: rest => do y <- f x; do ys <- map_result f rest; Ok (y :: ys)
  end.

(** [[t for t in xs if t['priority'] == prio]] *)
Fixpoint filter_priority (prio : string) (xs : list pyval) : result (list pyval) :=
  match xs with
  | [] => Ok []
  | t :: rest =>
      do p <- py_getitem t "priority";
      do ts <- filter_priority prio rest;
      Ok (if py_eq_str p prio then t :: ts else ts)
  end.

(** The dict [outputs]: its keys are "json" and "text". *)
Record Outputs : Type := {
  out_json : option (list token);
  out_text : option string
}.

Definition str_in (s : string) (l : list string) : bool :=
  existsb (String.eqb s) l.

(** [lines.append(x)] *)
Definition append {A : Type} (lines : list A) (x : A) : list A := lines ++ [x].

Section Narrative.
Context `{PyRuntime}.
Local Open Scope string_scope.

(** The narrative is built as the list [lines]; each block of [_to_text]
    is a function on that list.  The counter [word_count] of the source
    is written and never read, and is left out. *)

(* Header *)
Definition text_header (summary : ContextSummary) (lines : list string)
  : list string :=
  let lines := append lines "# Context Summary" in
  let lines := append lines (nl ++ "Generated: " ++ py_str (generated_at summary)) in
  append lines ("Session: " ++ py_str (session_id summary)).

(* Project Status *)
Definition text_project_status (summary : ContextSummary)
  (lines : list string) : result (list string) :=
  let project := project summary in
  let lines := append lines (nl ++ "## Project Status") in
  do n <- py_getitem project "name";
  do d <- py_getitem project "description";
  let lines := append lines ("**" ++ py_str n ++ "** - " ++ py_str d) in
  do ph <- py_getitem project "phase";
  let lines := append lines ("- Current Phase: Phase " ++ py_str ph) in
  do c <- py_getitem project "completed_tasks";
  do t <- py_getitem project "total_tasks";
  do r <- py_getitem project "completion_rate";
  do pct <- format_percent r;
  let lines :=
    append lines ("- Completion: " ++ py_str c ++ "/" ++ py_str t
                  ++ " tasks (" ++ pct ++ "%)") in
  do pt <- py_getitem project "pending_tasks";
  if py_truthy pt then
    do pt <- py_getitem project "pending_tasks";
    do first3 <- py_slice_to 3 pt;
    do ts <- py_iter first3;
    do names <- map_result (fun t => py_getitem t "name") ts;
    do joined <- py_join ", " names;
    Ok (append lines ("- Pending: " ++ joined))
  else Ok lines.

Definition task_line (task : pyval) (lines : list string)
  : result (list string) :=
  do id <- py_getitem task "id";
  do nm <- py_getitem task "name";
  Ok (append lines ("- Task " ++ py_str id ++ ": " ++ py_str nm)).

(* Pending Tasks: the block reads the attribute [pending_tasks] of the
   summary itself *)
Definition text_pending_tasks (summary : ContextSummary)
  (lines : list string) : result (list string) :=
  do pt <- ContextSummary_getattr summary "pending_tasks";
  if py_truthy pt then
    let lines := append lines (nl ++ "## Pending Tasks") in
    do pt <- ContextSummary_getattr summary "pending_tasks";
    do ts <- py_iter pt;
    do high <- filter_priority "high" ts;
    do pt <- ContextSummary_getattr summary "pending_tasks";
    do ts <- py_iter pt;
    do medium <- filter_priority "medium" ts;
    do lines <-
      match high with
      | [] => Ok lines
      | _ => for_each (firstn 3 high) task_line
               (append lines "🔴 High Priority:")
      end;
    match medium with
    | [] => Ok lines
    | _ => for_each (firstn 3 medium) task_line
             (append lines "🟡 Medium Priority:")
    end
  else Ok lines.

Definition decision_lines (decision : pyval) (lines : list string)
  : result (list string) :=
  do st <- py_getitem decision "status";
  if py_eq_str st "confirmed" then
    do d <- py_getitem decision "decision";
    let lines := append lines ("- " ++ py_str d) in
    do r <- py_getitem decision "reason";
    if py_truthy r then
      do r <- py_getitem decision "reason";
      do r100 <- py_slice_to 100 r;
      Ok (append lines ("  Reason: " ++ py_str r100))
    else Ok lines
  else Ok lines.

(* Technical Decisions *)
Definition text_tech_decisions (summary : ContextSummary)
  (lines : list string) : result (list string) :=
  if py_truthy (tech_decisions summary) then
    let lines := append lines (nl ++ "## Technical Decisions") in
    let lines := append lines "✅ Confirmed:" in
    do first5 <- py_slice_to 5 (tech_decisions summary);
    do ds <- py_iter first5;
    for_each ds decision_lines lines
  else Ok lines.

Definition item_line (x : pyval) (lines : list string) : result (list string) :=
  Ok (append lines ("- " ++ py_str x)).

(** [if d[key]: lines.append(title); for x in d[key][:n]: ...] *)
Definition listing (d : pyval) (key title : string) (n : nat)
  (lines : list string) : result (list string) :=
  do xs <- py_getitem d key;
  if py_truthy xs then
    let lines := append lines (title) in
    do xs <- py_getitem d key;
    do firstn <- py_slice_to n xs;
    do items <- py_iter firstn;
    for_each items item_line lines
  else Ok lines.

(* Code Context *)
Definition text_code_context (summary : ContextSummary)
  (lines : list string) : result (list string) :=
  if py_truthy (code_context summary) then
    let lines := append lines (nl ++ "## Code Context") in
    let code := code_context summary in
    do lines <- listing code "current_files" "📁 Current Files:" 5 lines;
    do lines <- listing code "recent_changes" (nl ++ "📝 Recent Changes:") 3 lines;
    do ap <- py_getitem code "architecture_patterns";
    if py_truthy ap then
      do ap <- py_getitem code "architecture_patterns";
      do parts <- py_iter ap;
      do joined <- py_join ", " parts;
      Ok (append lines (nl ++ "📐 Architecture: " ++ joined))
    else Ok lines
  else Ok lines.

(* Conversation History *)
Definition text_conversation_history (summary : ContextSummary)
  (lines : list string) : result (list string) :=
  if py_truthy (conversation_history summary) then
    let lines := append lines (nl ++ "## Conversation History") in
    let history := conversation_history summary in
    do lines <- listing history "key_discussions" "💬 Key Discussions:" 3 lines;
    do lines <- listing history "confirmed_items" (nl ++ "✅ Confirmed:") 3 lines;
    listing history "pending_confirmations" (nl ++ "❓ Pending:") 3 lines
  else Ok lines.

(* Recovery Instructions *)
Definition text_recovery_instructions (summary : ContextSummary)
  (lines : list string) : result (list string) :=
  let recovery := recovery_instructions summary in
  let lines := append lines (nl ++ "## Recovery Instructions") in
  let lines := append lines (nl ++ "📖 Read First:") in
  do rf <- py_getitem recovery "read_first";
  do fs <- py_iter rf;
  do lines <- for_each fs item_line lines;
  do cf <- py_getitem recovery "continue_from";
  let lines := append lines (nl ++ "🚀 Continue from: " ++ py_str cf) in
  do kc <- py_getitem recovery "key_context";
  Ok (append lines (nl ++ "🔑 Key Context: " ++ py_str kc)).

(* Footer *)
Definition text_footer (lines : list string) : list string :=
  let lines := append lines (nl ++ "==================================================") in
  append lines "Ready for new session recovery! 🚀".

Definition _to_text (summary : ContextSummary) (max_words : Z)
  : result string :=
  let lines := text_header summary [] in
  do lines <- text_project_status summary lines;
  do lines <- text_pending_tasks summary lines;
  do lines <- text_tech_decisions summary lines;
  do lines <- text_code_context summary lines;
  do lines <- text_conversation_history summary lines;
  do lines <- text_recovery_instructions summary lines;
  Ok (str_join nl (text_footer lines)).

(** *** [generate], [save], [recover] *)

Definition generate (self : ContextSummarizer) (w : World) (sid : string)
  (output_format : string) (include_sections : option (list string))
  (max_words : Z) : result Outputs :=
  do summary <- build_summary self w sid;
  let outputs := {| out_json := None; out_text := None |} in
  let outputs :=
    if str_in output_format ["json"; "both"]
    then {| out_json := Some (_to_json summary); out_text := out_text outputs |}
    else outputs in
  if str_in output_format ["text"; "both"]
  then do text <- _to_text summary max_words;
       Ok {| out_json := out_json outputs; out_text := Some text |}
  else Ok outputs.
End Narrative.

(** The dict [saved]: the paths written. *)
Record Saved : Type := {
  saved_json : option string;
  saved_text : option string
}.

Definition save (self : ContextSummarizer) (w : World) (outputs : Outputs)
  (base_path : option string) : result Saved * World :=
  let base_path := str_or base_path (project_root self) in
  let json_path := os_path_join base_path "session_summary.json" in
  let md_path := os_path_join base_path "session_summary.md" in
  let '(r1, w1) :=
    match out_json outputs with
    | Some js =>
        match write_file w base_path json_path (Json js) with
        | Ok w' => (Ok (Some json_path), w')
        | Raise e => (Raise e, w)
        end
    | None => (Ok None, w)
    end in
  match r1 with
  | Raise e => (Raise e, w1)
  | Ok sj =>
      match out_text outputs with
      | Some text =>
          match write_file w1 base_path md_path (Text text) with
          | Ok w' => (Ok {| saved_json := sj; saved_text := Some md_path |}, w')
          | Raise e => (Raise e, w1)
          end
      | None => (Ok {| saved_json := sj; saved_text := None |}, w1)
      end
  end.

(** [recover]: [Ok None] is the [None] of the source, [Raise] an exception
    that leaves the method. *)
Definition recover (self : ContextSummarizer) (w : World)
  (base_path : option string) : result (option ContextSummary) :=
  let base_path := str_or base_path (project_root self) in
  let json_path := os_path_join base_path "session_summary.json" in
  if negb (path_exists w json_path) then Ok None
  else
    do data <- read_json w json_path;
    do summary <- ContextSummary_new data;
    Ok (Some summary).

(** *** [auto_detect] *)

Definition _estimate_token_usage (w : World) : float :=
  try_except
    (do rss <- psutil_rss w;
     do mb <- int_truediv rss 1024;
     let estimated_tokens := (mb / 1024 * 100)%float in
     let usage := (estimated_tokens / 200000)%float in
     Ok (if (1 <? usage)%float then 1%float else usage))
    0%float.

(** The body of [auto_detect] on the outcome of the call
    [self._estimate_token_usage()]. *)
Definition auto_detect_on (estimate : result float) : bool * float :=
  try_except
    (do token_usage <- estimate;
     Ok ((0.8 <? token_usage)%float, token_usage))
    (false, 0%float).

Definition auto_detect (w : World) : bool * float :=
  auto_detect_on (Ok (_estimate_token_usage w)).

(** ** Vocabulary of the statements *)

(** A record shows the time stamp [ts]: in its field, in the header of
    the narrative, and in the decoded structured rendering. *)
Definition shows_timestamp `{PyRuntime} (ts : string) (R : ContextSummary)
  : Prop :=
  generated_at R = VStr ts
  /\ text_header R [] =
     ["# Context Summary"; (nl ++ "Generated: " ++ ts)%string;
      ("Session: " ++ py_str (session_id R))%string]
  /\ (do v <- json_loads (_to_json R); py_getitem v "generated_at")
     = Ok (VStr ts).

(** The regular files among the matches of one pattern, in the order of the
    iteration. *)
Definition file_hits (self : ContextSummarizer) (w : World) (pattern : string)
  : list string :=
  List.filter (fun rel_path => is_file w (os_path_join (project_root self) rel_path))
    (glob w (project_root self) pattern).

(** The candidates of [_list_current_files]: the source files, then the
    config files. *)
Definition source_candidates (self : ContextSummarizer) (w : World)
  : list string := flat_map (file_hits self w) src_patterns.

Definition config_candidates (self : ContextSummarizer) (w : World)
  : list string := flat_map (file_hits self w) config_patterns.

Definition candidate_files (self : ContextSummarizer) (w : World)
  : list string := source_candidates self w ++ config_candidates self w.

(** The Technical Decisions block on typed decisions. *)
Definition is_confirmed (d : TechDecision) : bool :=
  String.eqb (status d) "confirmed".

(** The lines of one listed decision: the decision, then its reason cut to
    100 characters when there is one. *)
Definition decision_entry (d : TechDecision) : list string :=
  ("- " ++ decision d)%string ::
  (if String.eqb (reason d) "" then []
   else [("  Reason: " ++ py_str_take 100 (reason d))%string]).

Definition decisions_heading : list string :=
  [(nl ++ "## Technical Decisions")%string; "✅ Confirmed:"].

(** The shape of a summary record in the words of the specification: an
    object with the eight fields and no other, where [version],
    [generated_at] and [session_id] are strings, [tech_decisions] is a
    sequence and the other four fields are records. *)
Definition is_string (v : pyval) : bool :=
  match v with VStr _ => true | _ => false end.

Definition is_sequence (v : pyval) : bool :=
  match v with VList _ => true | _ => false end.

Definition is_object (v : pyval) : bool :=
  match v with VDict _ => true | _ => false end.

Definition field_is (d : list (string * pyval)) (f : string)
  (ty : pyval -> bool) : bool :=
  match dict_get d f with
  | Some v => ty v
  | None => false
  end.

Definition spec_record_shape (data : pyval) : bool :=
  match data with
  | VDict d =>
      keywords_known ContextSummary_fields d
      && field_is d "version" is_string
      && field_is d "generated_at" is_string
      && field_is d "session_id" is_string
      && field_is d "project" is_object
      && field_is d "tech_decisions" is_sequence
      && field_is d "code_context" is_object
      && field_is d "conversation_history" is_object
      && field_is d "recovery_instructions" is_object
  | _ => false
  end.

(** ** Worked inputs *)

(** The runtime of the worked inputs below: none of them prints a float or a
    container, and none has a decisions document. *)
Definition example_runtime : PyRuntime :=
  {| float_repr := fun _ => "<float>";
     container_repr := fun _ => "<container>";
     re_findall_decisions := fun _ => [] |}.

Definition world_with (files : gmap string fs_entry)
  (hits : string -> string -> list string) (rss : result Z) : World :=
  {| cwd := "/proj";
     utc_now := "2025-01-01T00:00:00+00:00";
     fs := <["/proj" := Dir]> files;
     glob := hits;
     git_status := fun _ => Raise OSError;
     psutil_rss := rss |}.

(** The project directory /proj with nothing in it. *)
Definition empty_world : World :=
  world_with ∅ (fun _ _ => []) (Raise OSError).

Definition self0 : ContextSummarizer := __init__ empty_world None.

Fixpoint str_repeat (n : nat) (s : string) : string :=
  match n with
  | O => ""
  | S k => s ++ str_repeat k s
  end.

(** AGENTS.md with [done] checked boxes among [total] lines that each say
    "Task" once. *)
Definition agents_md (done total : nat) : string :=
  str_repeat done "- [x] Task done " ++ str_repeat (total - done) "- [ ] Task open ".

(** 30 of 45 tasks checked in AGENTS.md, and [total_tasks] set to 45 by
    config/project.json. *)
Definition world_30_45 : World :=
  world_with
    {[ "/proj/AGENTS.md" := Text (agents_md 30 45);
       "/proj/config" := Dir;
       "/proj/config/project.json" :=
         Json [TLBrace; TStr "total_tasks"; TColon; TInt 45; TRBrace] ]}
    (fun _ pattern =>
       if String.eqb pattern "config/*.json" then ["config/project.json"]
       else [])
    (Raise OSError).

Definition summary_30_45 : ContextSummary :=
  {| version := VStr "1.0";
     generated_at := VStr "2025-01-01T00:00:00+00:00";
     session_id := VStr "s1";
     project :=
       VDict [("name", VStr "Project");
              ("description", VStr "A coding project");
              ("phase", VInt 1);
              ("total_tasks", VInt 45);
              ("completed_tasks", VInt 30);
              ("completion_rate", VFloat (30 / 45)%float);
              ("pending_tasks", VList [])];
     tech_decisions :=
       VList [VDict [("decision", VStr "Standard architecture");
                     ("status", VStr "confirmed");
                     ("reason", VStr "Default decision for new projects")]];
     code_context :=
       VDict [("current_files", VList [VStr "config/project.json"]);
              ("recent_changes", VList []);
              ("architecture_patterns",
               VList [VStr "config"; VStr "OpenCode workflow"])];
     conversation_history :=
       VDict [("key_discussions", VList []); ("confirmed_items", VList []);
              ("pending_confirmations", VList [])];
     recovery_instructions :=
       VDict [("read_first", VList [VStr "README.md"; VStr "AGENTS.md"]);
              ("continue_from", VStr "Phase 1 completion");
              ("key_context", VStr "Project - Phase 1, 67% complete")] |}.

(** The same world at a later time. *)
Definition later (w : World) : World :=
  {| cwd := cwd w; utc_now := "2025-06-30T12:00:00+00:00"; fs := fs w;
     glob := glob w; git_status := git_status w; psutil_rss := psutil_rss w |}.

Definition with_session (R : ContextSummary) (sid : string) : ContextSummary :=
  {| version := version R; generated_at := generated_at R;
     session_id := VStr sid; project := project R;
     tech_decisions := tech_decisions R; code_context := code_context R;
     conversation_history := conversation_history R;
     recovery_instructions := recovery_instructions R |}.

Definition task (id : Z) (title priority : string) : pyval :=
  VDict [("id", VInt id); ("name", VStr title); ("priority", VStr priority)].

(** Four pending tasks: high, medium, high, low. *)
Definition four_tasks : pyval :=
  VList [task 1 "Design schema" "high"; task 2 "Write docs" "medium";
         task 3 "Fix login" "high"; task 4 "Tidy logs" "low"].

(** AGENTS.md as above, and a config/project.json that lists the four
    pending tasks. *)
Definition world_pending : World :=
  world_with
    {[ "/proj/AGENTS.md" := Text (agents_md 30 45);
       "/proj/config" := Dir;
       "/proj/config/project.json" :=
         Json (json_dumps (VDict [("total_tasks", VInt 45);
                                  ("pending_tasks", four_tasks)])) ]}
    (fun _ pattern =>
       if String.eqb pattern "config/*.json" then ["config/project.json"]
       else [])
    (Raise OSError).

Definition summary_pending : ContextSummary :=
  {| version := VStr "1.0";
     generated_at := VStr "2025-01-01T00:00:00+00:00";
     session_id := VStr "s1";
     project :=
       VDict [("name", VStr "Project");
              ("description", VStr "A coding project");
              ("phase", VInt 1);
              ("total_tasks", VInt 45);
              ("completed_tasks", VInt 30);
              ("completion_rate", VFloat (30 / 45)%float);
              ("pending_tasks", four_tasks)];
     tech_decisions := tech_decisions summary_30_45;
     code_context := code_context summary_30_45;
     conversation_history := conversation_history summary_30_45;
     recovery_instructions :=
       VDict [("read_first", VList [VStr "README.md"; VStr "AGENTS.md"]);
              ("continue_from", VStr "Task 1: Design schema");
              ("key_context", VStr "Project - Phase 1, 67% complete")] |}.

(** 30 boxes checked among 60 task lines, with [total_tasks] set to 45 by
    the config. *)
Definition world_30_of_60 : World :=
  world_with
    {[ "/proj/AGENTS.md" := Text (agents_md 30 60);
       "/proj/config/project.json" :=
         Json [TLBrace; TStr "total_tasks"; TColon; TInt 45; TRBrace] ]}
    (fun _ _ => []) (Raise OSError).

(** A saved artifact that lacks the field [version]. *)
Definition artifact_without_version : list (string * pyval) :=
  [("generated_at", VStr "2025-01-01T00:00:00+00:00");
   ("session_id", VStr "s1");
   ("project", project summary_30_45);
   ("tech_decisions", tech_decisions summary_30_45);
   ("code_context", code_context summary_30_45);
   ("conversation_history", conversation_history summary_30_45);
   ("recovery_instructions", recovery_instructions summary_30_45)].

Definition world_corrupt : World :=
  world_with
    {[ "/proj/session_summary.json" :=
         Json (json_dumps (VDict artifact_without_version)) ]}
    (fun _ _ => []) (Raise OSError).

(** A process whose resident set is [rss] bytes. *)
Definition world_rss (rss : Z) : World :=
  world_with ∅ (fun _ _ => []) (Ok rss).

(** Twenty data files under src/, none of them Python, and no config. *)
Definition twenty_sources : list string :=
  map (fun i => ("src/f" ++ str_of_Z (Z.of_nat i) ++ ".txt")%string) (seq 1 20).

Definition world_20_sources : World :=
  world_with
    (list_to_map (map (fun rel => (os_path_join "/proj" rel, Text "")) twenty_sources))
    (fun _ pattern => if String.eqb pattern "src/**/*" then twenty_sources else [])
    (Raise OSError).

(** Five source files and fifteen config files. *)
Definition five_sources : list string := firstn 5 twenty_sources.

Definition fifteen_configs : list string :=
  map (fun i => ("config/c" ++ str_of_Z (Z.of_nat i) ++ ".json")%string)
    (seq 1 15).

Definition world_5_15 : World :=
  world_with
    (list_to_map (map (fun rel => (os_path_join "/proj" rel, Text ""))
                    (five_sources ++ fifteen_configs)))
    (fun _ pattern =>
       if String.eqb pattern "src/**/*" then five_sources
       else if String.eqb pattern "config/*.json" then fifteen_configs
       else [])
    (Raise OSError).

(** The directories and the files that [_detect_architecture] finds. *)
Definition existing_dirs (self : ContextSummarizer) (w : World) : list string :=
  List.filter (fun d => path_exists w (os_path_join (project_root self) d))
    architecture_dirs.

Definition existing_labels (self : ContextSummarizer) (w : World) : list string :=
  map snd
    (List.filter
       (fun fp => path_exists w (os_path_join (project_root self) (fst fp)))
       architecture_files).

(** A string that does not begin with a white-space character. *)
Definition starts_clean (s : string) : Prop := space_prefix s = None.

(** A string that [strip] leaves alone and that is not empty. *)
Definition clean_entry (c : string) : Prop := c <> "" /\ py_strip c = c.

(** The world [w] with a repository whose [git status --short] prints
    [out]. *)
Definition with_git (w : World) (out : string) : World :=
  {| cwd := cwd w; utc_now := utc_now w; fs := fs w; glob := glob w;
     git_status := fun _ => Ok (0, out); psutil_rss := psutil_rss w |}.

(** U+00A0 and U+3000 in UTF-8, and a git output whose second line is made
    of an ideographic space only. *)
Definition no_break_space : string :=
  String "194"%char (String "160"%char "").

Definition ideographic_space : string :=
  String "227"%char (String "128"%char (String "128"%char "")).

Definition world_git_wide_space : World :=
  with_git empty_world
    (" M src/app.py" ++ no_break_space ++ nl ++ ideographic_space ++ nl
     ++ "?? notes.txt")%string.

(** Two changed files, as git prints them. *)
Definition world_git : World :=
  with_git empty_world
    (" M src/app.py" ++ nl ++ "?? notes.txt" ++ nl)%string.

(** The five directories of [_detect_architecture], and two of its files. *)
Definition world_all_dirs : World :=
  world_with
    {[ "/proj/src" := Dir; "/proj/tests" := Dir; "/proj/config" := Dir;
       "/proj/docs" := Dir; "/proj/scripts" := Dir;
       "/proj/requirements.txt" := Text "requests";
       "/proj/AGENTS.md" := Text "" ]}
    (fun _ _ => []) (Raise OSError).

(** The dict [project] of [_load_project_status] after the AGENTS.md step
    and before the config step. *)
Definition agents_project (self : ContextSummarizer) (w : World)
  : list (string * pyval) :=
  let agents_path := os_path_join (project_root self) "AGENTS.md" in
  if path_exists w agents_path
  then try_except
         (do content <- read_text w agents_path;
          Ok (parse_agents content default_project))
         default_project
  else default_project.

Definition config_path (self : ContextSummarizer) : string :=
  os_path_join (os_path_join (project_root self) "config") "project.json".

(** One Python module under src/, found by both source patterns. *)
Definition world_one_module : World :=
  world_with
    {[ "/proj/src" := Dir; "/proj/src/app.py" := Text "print(1)" ]}
    (fun _ pattern =>
       if String.eqb pattern "src/**/*.py" then ["src/app.py"]
       else if String.eqb pattern "src/**/*" then ["src/app.py"]
       else [])
    (Raise OSError).

(** AGENTS.md with two checked boxes and no task word, and no config. *)
Definition world_boxes_only : World :=
  world_with {[ "/proj/AGENTS.md" := Text "[x] one [x] two" ]}
    (fun _ _ => []) (Raise OSError).

(** No AGENTS.md; the config names the project and gives the rate. *)
Definition config_with_rate : list (string * pyval) :=
  [("name", VStr "Atlas"); ("completion_rate", VFloat 0.25)].

Definition world_config_rate : World :=
  world_with
    {[ "/proj/config" := Dir;
       "/proj/config/project.json" := Json (json_dumps (VDict config_with_rate)) ]}
    (fun _ _ => []) (Raise OSError).

(** A config with a key that is no field of [ProjectStatus]. *)
Definition config_with_owner : list (string * pyval) :=
  [("completion_rate", VFloat 0.25); ("owner", VStr "me")].

Definition world_config_owner : World :=
  world_with
    {[ "/proj/config" := Dir;
       "/proj/config/project.json" := Json (json_dumps (VDict config_with_owner)) ]}
    (fun _ _ => []) (Raise OSError).

(** The two artifacts of [save] and [recover] under a base path. *)
Definition summary_json_path (self : ContextSummarizer) (base : option string)
  : string :=
  os_path_join (str_or base (project_root self)) "session_summary.json".

Definition summary_md_path (self : ContextSummarizer) (base : option string)
  : string :=
  os_path_join (str_or base (project_root self)) "session_summary.md".

(** A directory sits where the narrative is to be written. *)
Definition world_md_is_dir : World :=
  world_with {[ "/proj/session_summary.md" := Dir ]}
    (fun _ _ => []) (Raise OSError).

(** The artifact of [summary_30_45] with its fields in reverse order. *)
Definition reversed_artifact : list (string * pyval) :=
  match asdict_ContextSummary summary_30_45 with
  | VDict fields => rev fields
  | _ => []
  end.

Definition world_artifact (ts : list token) : World :=
  world_with {[ "/proj/session_summary.json" := Json ts ]}
    (fun _ _ => []) (Raise OSError).

(** A record whose fields have none of the annotated types. *)
Definition untyped_summary : ContextSummary :=
  {| version := VInt 5; generated_at := VNone; session_id := VList [];
     project := VStr "none"; tech_decisions := VBool true;
     code_context := VInt 0; conversation_history := VNone;
     recovery_instructions := VList [VInt 1] |}.

(** A titled list of at most [n] bullet lines, absent when the list is
    empty. *)
Definition bullets (title : string) (n : nat) (l : list string) : list string :=
  match l with
  | [] => []
  | _ => title :: map (fun x => ("- " ++ x)%string) (firstn n l)
  end.

(** The lines of the Code Context block for a code context. *)
Definition code_context_lines (c : CodeContext) : list string :=
  [(nl ++ "## Code Context")%string]
  ++ bullets "📁 Current Files:" 5 (current_files c)
  ++ bullets (nl ++ "📝 Recent Changes:")%string 3 (recent_changes c)
  ++ match architecture_patterns c with
     | [] => []
     | ps => [(nl ++ "📐 Architecture: " ++ str_join ", " ps)%string]
     end.

(** The example project with a config file that holds [cfg]. *)
Definition world_config (cfg : pyval) : World :=
  world_with
    {[ "/proj/AGENTS.md" := Text (agents_md 30 45);
       "/proj/config" := Dir;
       "/proj/config/project.json" := Json (json_dumps cfg) ]}
    (fun _ _ => []) (Raise OSError).

(** A config whose first pending task has no name. *)
Definition config_nameless_task : pyval :=
  VDict [("pending_tasks", VList [VDict [("id", VInt 1)]])].

(** A string rate together with a pending task that has an id and a name. *)
Definition config_rate_string_task : pyval :=
  VDict [("completion_rate", VStr "67%");
         ("pending_tasks",
          VList [VDict [("id", VInt 2); ("name", VStr "Write the parser")]])].

(** * Properties *)

(** ** Dictionaries *)

Lemma dict_set_fresh d k v :
  ~ In k (map fst d) -> dict_set d k v = d ++ [(k, v)].
Proof.
  induction d as [|[k' v'] d IH]; simpl; intros Hk; [reflexivity|].
  destruct (String.eqb_spec k' k) as [->|Hne].
  - exfalso. apply Hk. now left.
  - f_equal. apply IH. intros Hin. apply Hk. now right.
Qed.

Lemma dict_fold_nodup ps : forall acc,
  List.NoDup (map fst (acc ++ ps)) ->
  fold_left (fun d kv => dict_set d (fst kv) (snd kv)) ps acc = acc ++ ps.
Proof.
  induction ps as [|[k v] ps IH]; intros acc Hnd; simpl.
  - now rewrite app_nil_r.
  - rewrite dict_set_fresh.
    + rewrite IH; rewrite <- app_assoc; [reflexivity|exact Hnd].
    + rewrite map_app in Hnd. simpl in Hnd.
      apply List.NoDup_remove_2 in Hnd. intros Hin. apply Hnd.
      apply in_or_app. now left.
Qed.

Lemma dict_of_pairs_nodup ps :
  List.NoDup (map fst ps) -> dict_of_pairs ps = ps.
Proof. intros H. unfold dict_of_pairs. now rewrite dict_fold_nodup. Qed.

(** ** The JSON codec *)

Lemma json_dumps_list x r :
  json_dumps (VList (x :: r)) = TLBracket :: json_dumps x ++ dump_more_items r.
Proof. reflexivity. Qed.

Lemma json_dumps_dict k x r :
  json_dumps (VDict ((k, x) :: r)) =
  TLBrace :: TStr k :: TColon :: json_dumps x ++ dump_more_members r.
Proof. reflexivity. Qed.

Definition opens_value (t : token) : bool :=
  match t with
  | TRBracket | TRBrace | TComma | TColon | TInvalid => false
  | _ => true
  end.

Lemma json_dumps_head v :
  exists t r, json_dumps v = t :: r /\ opens_value t = true.
Proof.
  destruct v as [| [|] | | | | [|x r] | [|[k x] r]]; simpl; eauto.
Qed.

Lemma parse_items_dump x r : forall n rest,
  Forall (fun v => forall n rest, (length (json_dumps v) < n)%nat ->
            parse_value n (json_dumps v ++ rest) = Some (v, rest)) (x :: r) ->
  (length (json_dumps x ++ dump_more_items r) < n)%nat ->
  parse_items n (json_dumps x ++ dump_more_items r ++ rest) = Some (x :: r, rest).
Proof.
  revert x. induction r as [|y r IH]; intros x n rest HF Hn.
  - destruct n as [|n]; [lia|]. simpl.
    inversion HF as [|? ? Hx _]; subst.
    rewrite Hx; [reflexivity|].
    rewrite length_app in Hn. simpl in Hn. lia.
  - destruct n as [|n]; [lia|].
    inversion HF as [|? ? Hx HF']; subst.
    cbn [parse_items dump_more_items]. 
    rewrite <- app_comm_cons.
    rewrite Hx.
    2:{ rewrite length_app in Hn. simpl in Hn. lia. }
    rewrite <- app_assoc.
    rewrite (IH y n rest HF'); [reflexivity|].
    rewrite !length_app in *. simpl in Hn. rewrite length_app in Hn. lia.
Qed.

Lemma parse_members_dump k x r : forall n rest,
  Forall (fun kv => forall n rest, (length (json_dumps (snd kv)) < n)%nat ->
            parse_value n (json_dumps (snd kv) ++ rest) = Some (snd kv, rest))
         ((k, x) :: r) ->
  (length (TStr k :: TColon :: json_dumps x ++ dump_more_members r) < n)%nat ->
  parse_members n (TStr k :: TColon :: json_dumps x ++ dump_more_members r ++ rest)
  = Some ((k, x) :: r, rest).
Proof.
  revert k x. induction r as [|[k' y] r IH]; intros k x n rest HF Hn.
  - destruct n as [|n]; [simpl in Hn; lia|]. simpl.
    inversion HF as [|? ? Hx _]; subst. simpl in Hx.
    rewrite Hx; [reflexivity|].
    simpl in Hn. rewrite length_app in Hn. simpl in Hn. lia.
  - destruct n as [|n]; [simpl in Hn; lia|].
    inversion HF as [|? ? Hx HF']; subst. simpl in Hx.
    cbn [parse_members dump_more_members].
    rewrite <- !app_comm_cons.
    rewrite Hx.
    2:{ simpl in Hn. rewrite length_app in Hn. simpl in Hn. lia. }
    rewrite <- app_assoc.
    rewrite (IH k' y n rest HF'); [reflexivity|].
    simpl in Hn. rewrite !length_app in Hn. simpl in Hn.
    rewrite length_app in Hn. simpl. rewrite length_app. lia.
Qed.

Lemma parse_value_dump v :
  wf_val v ->
  forall n rest, (length (json_dumps v) < n)%nat ->
  parse_value n (json_dumps v ++ rest) = Some (v, rest).
Proof.
  induction v as [| b | z | f | s | items IH | entries IH]
    using pyval_nested_ind; intros Hwf n rest Hn;
    (destruct n as [|n]; [simpl in Hn; lia|]).
  - reflexivity.
  - destruct b; reflexivity.
  - reflexivity.
  - reflexivity.
  - reflexivity.
  - destruct items as [|x r]; [reflexivity|].
    rewrite json_dumps_list in *.
    inversion Hwf as [| | | | | ? Hall |]; subst.
    assert (HF : Forall (fun v => forall n rest,
                (length (json_dumps v) < n)%nat ->
                parse_value n (json_dumps v ++ rest) = Some (v, rest)) (x :: r)).
    { clear Hn. revert IH Hall. generalize (x :: r). intros l IH Hall.
      induction IH as [|a l Ha _ IHl]; [constructor|].
      inversion Hall; subst. constructor; auto. }
    destruct (json_dumps_head x) as (t & tl & Hx & Ht).
    pose proof (parse_items_dump x r n rest HF) as Hitems.
    rewrite <- app_comm_cons, <- app_assoc.
    simpl in Hn.
    specialize (Hitems ltac:(lia)).
    rewrite Hx in *. rewrite <- app_comm_cons in *.
    cbn [parse_value].
    destruct t; try discriminate Ht; rewrite Hitems; reflexivity.
  - destruct entries as [|[k x] r]; [reflexivity|].
    rewrite json_dumps_dict in *.
    inversion Hwf as [| | | | | | ? Hnd Hall]; subst.
    assert (HF : Forall (fun kv => forall n rest,
                (length (json_dumps (snd kv)) < n)%nat ->
                parse_value n (json_dumps (snd kv) ++ rest) = Some (snd kv, rest))
              ((k, x) :: r)).
    { clear Hn Hnd. revert IH Hall. generalize ((k, x) :: r). intros l IH Hall.
      induction IH as [|a l Ha _ IHl]; [constructor|].
      inversion Hall; subst. constructor; auto. }
    pose proof (parse_members_dump k x r n rest HF) as Hm.
    simpl in Hn.
    specialize (Hm ltac:(simpl; lia)).
    rewrite <- !app_comm_cons, <- app_assoc.
    cbn [parse_value].
    rewrite Hm. now rewrite dict_of_pairs_nodup.
Qed.

Lemma json_loads_dumps v : wf_val v -> json_loads (json_dumps v) = Ok v.
Proof.
  intros Hwf. unfold json_loads.
  pose proof (parse_value_dump v Hwf (S (length (json_dumps v))) []) as H.
  rewrite app_nil_r in H. rewrite H; [reflexivity|lia].
Qed.

(** ** Well-formed values through the decoder and the assembler *)

Definition values_wf (d : list (string * pyval)) : Prop :=
  Forall (fun kv => wf_val (snd kv)) d.

Lemma dict_set_keys d k v k' :
  In k' (map fst (dict_set d k v)) -> k' = k \/ In k' (map fst d).
Proof.
  induction d as [|[k0 v0] d IH]; simpl.
  - intros [->|[]]. now left.
  - destruct (String.eqb_spec k0 k) as [->|Hne]; simpl.
    + intros [->|Hin]; auto.
    + intros [->|Hin]; auto. destruct (IH Hin); auto.
Qed.

Lemma dict_set_nodup d k v :
  List.NoDup (map fst d) -> List.NoDup (map fst (dict_set d k v)).
Proof.
  induction d as [|[k0 v0] d IH]; simpl; intros Hnd.
  - constructor; [intros []|constructor].
  - inversion Hnd as [|? ? Hnotin Hnd']; subst.
    destruct (String.eqb_spec k0 k) as [->|Hne]; simpl.
    + now constructor.
    + constructor; [|now apply IH].
      intros Hin. destruct (dict_set_keys _ _ _ _ Hin) as [->|Hin']; auto.
Qed.

Lemma dict_set_values d k v :
  values_wf d -> wf_val v -> values_wf (dict_set d k v).
Proof.
  unfold values_wf. induction d as [|[k0 v0] d IH]; simpl; intros Hd Hv.
  - constructor; [exact Hv|constructor].
  - inversion Hd as [|? ? H0 Hd']; subst.
    destruct (String.eqb k0 k); constructor; auto.
Qed.

Lemma dict_get_values d k v :
  values_wf d -> dict_get d k = Some v -> wf_val v.
Proof.
  unfold values_wf. induction d as [|[k0 v0] d IH]; simpl; intros Hd Hg.
  - discriminate.
  - inversion Hd as [|? ? H0 Hd']; subst.
    destruct (String.eqb k0 k); [now inversion Hg; subst|auto].
Qed.

Lemma dict_fold_inv ps : forall d,
  List.NoDup (map fst d) -> values_wf d -> values_wf ps ->
  let d' := fold_left (fun d kv => dict_set d (fst kv) (snd kv)) ps d in
  List.NoDup (map fst d') /\ values_wf d'.
Proof.
  induction ps as [|[k v] ps IH]; intros d Hnd Hd Hps; simpl.
  - auto.
  - inversion Hps as [|? ? Hv Hps']; subst.
    apply IH; auto using dict_set_nodup, dict_set_values.
Qed.

Lemma dict_of_pairs_inv ps :
  values_wf ps -> wf_val (VDict (dict_of_pairs ps)).
Proof.
  intros Hps.
  destruct (dict_fold_inv ps [] (List.NoDup_nil _) (List.Forall_nil _) Hps)
    as [Hnd Hv].
  now constructor.
Qed.

Lemma parse_wf n :
  (forall ts v r, parse_value n ts = Some (v, r) -> wf_val v) /\
  (forall ts vs r, parse_items n ts = Some (vs, r) -> Forall wf_val vs) /\
  (forall ts ps r, parse_members n ts = Some (ps, r) -> values_wf ps).
Proof.
  induction n as [|n (IHv & IHi & IHm)].
  - repeat split; intros; discriminate.
  - repeat split.
    + intros ts v r Hp. cbn [parse_value] in Hp.
      destruct ts as [|t ts]; [discriminate|].
      destruct t; try discriminate;
        try (inversion Hp; subst; constructor; fail).
      * destruct ts as [|t' ts'].
        { destruct (parse_items n []) as [[items r']|] eqn:E; [|discriminate].
          inversion Hp; subst. constructor. eapply IHi; eauto. }
        destruct t';
          try (destruct (parse_items n _) as [[items r']|] eqn:E;
               [|discriminate]; inversion Hp; subst; constructor;
               eapply IHi; eauto; fail).
        inversion Hp; subst. constructor. constructor.
      * destruct ts as [|t' ts'].
        { destruct (parse_members n []) as [[ps r']|] eqn:E; [|discriminate].
          inversion Hp; subst. apply dict_of_pairs_inv. eapply IHm; eauto. }
        destruct t';
          try (destruct (parse_members n _) as [[ps r']|] eqn:E;
               [|discriminate]; inversion Hp; subst; apply dict_of_pairs_inv;
               eapply IHm; eauto; fail).
        inversion Hp; subst. constructor; constructor.
    + intros ts vs r Hp. cbn [parse_items] in Hp.
      destruct (parse_value n ts) as [[v [|t r0]]|] eqn:E; try discriminate.
      destruct t; try discriminate.
      * inversion Hp; subst. constructor; [eapply IHv; eauto|constructor].
      * destruct (parse_items n r0) as [[vs' r']|] eqn:E'; [|discriminate].
        inversion Hp; subst. constructor; [eapply IHv|eapply IHi]; eauto.
    + intros ts ps r Hp. cbn [parse_members] in Hp.
      destruct ts as [|[] [|[] ts]]; try discriminate.
      destruct (parse_value n ts) as [[v [|t r0]]|] eqn:E; try discriminate.
      destruct t; try discriminate.
      * inversion Hp; subst. constructor; [eapply IHv; eauto|constructor].
      * destruct (parse_members n r0) as [[ps' r']|] eqn:E'; [|discriminate].
        inversion Hp; subst.
        constructor; [simpl; eapply IHv|eapply IHm]; eauto.
Qed.

Lemma json_loads_wf ts v : json_loads ts = Ok v -> wf_val v.
Proof.
  unfold json_loads. intros H.
  destruct (parse_value (S (length ts)) ts) as [[v' [|]]|] eqn:E;
    try discriminate.
  inversion H; subst. eapply (proj1 (parse_wf _)); eauto.
Qed.

Lemma update_pair_wf item k v :
  wf_val item -> update_pair item = Ok (k, v) -> wf_val v.
Proof.
  intros Hwf Hp. destruct item as [| | | |s|items|entries]; simpl in Hp;
    try discriminate.
  - destruct (str_chars s) as [|a [|b [|]]]; try discriminate.
    inversion Hp; subst. constructor.
  - destruct items as [|k0 [|v0 [|]]]; try discriminate.
    inversion Hwf as [| | | | |? Hall|]; subst.
    inversion Hall as [|? ? _ Hall']; subst.
    inversion Hall' as [|? ? Hv0 _]; subst.
    destruct k0; inversion Hp; subst; assumption.
  - destruct entries as [|[k1 v1] [|[k2 v2] [|]]]; try discriminate.
    inversion Hp; subst. constructor.
Qed.

Lemma dict_update_seq_wf items : forall d f d' f',
  Forall wf_val items -> values_wf d ->
  dict_update_seq d f items = (d', f') -> values_wf d'.
Proof.
  induction items as [|item items IH]; intros d f d' f' Hall Hd Hu;
    simpl in Hu.
  - now inversion Hu; subst.
  - inversion Hall as [|? ? Hitem Hall']; subst.
    destruct (update_pair item) as [[[k|] v]|e] eqn:E.
    + eapply IH; [exact Hall'| |exact Hu].
      apply dict_set_values; [exact Hd|]. eapply update_pair_wf; eauto.
    + eapply IH; eauto.
    + now inversion Hu; subst.
Qed.

Lemma dict_update_wf d other d' f' :
  wf_val other -> List.NoDup (map fst d) -> values_wf d ->
  dict_update d other = (d', f') -> values_wf d'.
Proof.
  intros Ho Hnd Hd Hu. destruct other as [| | | |s|items|entries];
    simpl in Hu; try (now inversion Hu; subst).
  - eapply dict_update_seq_wf; [| exact Hd | exact Hu].
    apply Forall_forall. intros x Hx. apply list_elem_of_In in Hx.
    apply in_map_iff in Hx as (c & <- & _). constructor.
  - inversion Ho as [| | | | |? Hall|]; subst.
    eapply dict_update_seq_wf; eauto.
  - inversion Ho as [| | | | | |? Hnd' Hall]; subst.
    inversion Hu; subst.
    now apply (dict_fold_inv entries d Hnd Hd Hall).
Qed.

Lemma default_project_wf : values_wf default_project.
Proof. repeat constructor. Qed.

Lemma default_project_nodup : List.NoDup (map fst default_project).
Proof.
  simpl. repeat (constructor; [simpl; intuition discriminate|]). constructor.
Qed.

Lemma parse_agents_inv content d :
  List.NoDup (map fst d) -> values_wf d ->
  List.NoDup (map fst (parse_agents content d))
  /\ values_wf (parse_agents content d).
Proof.
  intros Hnd Hd. unfold parse_agents.
  destruct (0 <? _).
  - destruct (int_truediv _ _) as [q|e]; cbn [rbind].
    + split; [now repeat apply dict_set_nodup|].
      repeat apply dict_set_values; auto; constructor.
    + split; [now apply dict_set_nodup|].
      apply dict_set_values; auto; constructor.
  - split; [now repeat apply dict_set_nodup|].
    repeat apply dict_set_values; auto; constructor.
Qed.

Lemma ProjectStatus_new_wf d p :
  values_wf d -> ProjectStatus_new d = Ok p -> wf_val (asdict_ProjectStatus p).
Proof.
  intros Hd Hn. unfold ProjectStatus_new in Hn.
  destruct (keywords_known _ _); [|discriminate].
  destruct (dict_get d "name") eqn:E1; [|discriminate].
  destruct (dict_get d "description") eqn:E2; [|discriminate].
  destruct (dict_get d "phase") eqn:E3; [|discriminate].
  destruct (dict_get d "total_tasks") eqn:E4; [|discriminate].
  destruct (dict_get d "completed_tasks") eqn:E5; [|discriminate].
  destruct (dict_get d "completion_rate") eqn:E6; [|discriminate].
  destruct (dict_get d "pending_tasks") eqn:E7; [|discriminate].
  inversion Hn; subst. unfold asdict_ProjectStatus. simpl.
  constructor.
  - simpl. repeat (constructor; [simpl; intuition discriminate|]). constructor.
  - repeat constructor; simpl; eapply dict_get_values; eauto.
Qed.

Lemma load_project_status_wf self w p :
  _load_project_status self w = Ok p -> wf_val (asdict_ProjectStatus p).
Proof.
  unfold _load_project_status. intros H.
  set (d0 := if path_exists w _ then _ else default_project) in H.
  assert (H0 : List.NoDup (map fst d0) /\ values_wf d0).
  { clear H. subst d0.
    destruct (path_exists w (os_path_join (project_root self) "AGENTS.md"));
      [|split; [apply default_project_nodup|apply default_project_wf]].
    destruct (read_text w _) as [content|e]; cbn [rbind try_except];
      [|split; [apply default_project_nodup|apply default_project_wf]].
    apply parse_agents_inv;
      [apply default_project_nodup|apply default_project_wf]. }
  destruct H0 as [Hnd Hwf].
  destruct (path_exists w (os_path_join (os_path_join _ "config") _)).
  - destruct (read_json w _) as [config|e] eqn:Ej; simpl in H.
    + destruct (dict_update d0 config) as [d' f'] eqn:Eu.
      destruct f'; [discriminate|].
      eapply ProjectStatus_new_wf; [|exact H].
      eapply dict_update_wf; [| exact Hnd | exact Hwf | exact Eu].
      unfold read_json in Ej.
      destruct (fs w !! _) as [[| | |ts]|]; try discriminate.
      eapply json_loads_wf; eauto.
    + eapply ProjectStatus_new_wf; eauto.
  - eapply ProjectStatus_new_wf; eauto.
Qed.

Lemma vstrs_wf l : wf_val (vstrs l).
Proof.
  constructor. induction l; simpl; constructor; auto. constructor.
Qed.

Lemma nodup3 (a b c : string) :
  a <> b -> a <> c -> b <> c -> List.NoDup [a; b; c].
Proof.
  intros. repeat (constructor; [simpl; intuition congruence|]). constructor.
Qed.

Lemma build_summary_wf `{PyRuntime} self w sid R :
  build_summary self w sid = Ok R -> wf_val (asdict_ContextSummary R).
Proof.
  unfold build_summary. intros Hb.
  destruct (_load_project_status self w) as [p|e] eqn:Ep; [|discriminate].
  simpl in Hb.
  destruct (_get_continue_from p) as [cf|e]; [|discriminate]. simpl in Hb.
  destruct (_get_key_context p) as [kc|e]; [|discriminate]. simpl in Hb.
  inversion Hb; subst; clear Hb. unfold asdict_ContextSummary. simpl.
  constructor.
  - simpl. repeat (constructor; [simpl; intuition discriminate|]). constructor.
  - repeat (apply List.Forall_cons); simpl;
      [constructor | constructor | constructor | | | | | | constructor].
    + eapply load_project_status_wf; eauto.
    + constructor.
      induction (_load_tech_decisions self w) as [|d ds IH]; simpl;
        constructor; auto.
      constructor; [apply nodup3; discriminate|repeat constructor].
    + constructor; [apply nodup3; discriminate|].
      repeat (apply List.Forall_cons); simpl; try apply vstrs_wf. constructor.
    + constructor; [apply nodup3; discriminate|].
      repeat (apply List.Forall_cons); simpl; try apply vstrs_wf. constructor.
    + constructor; [apply nodup3; discriminate|].
      repeat (apply List.Forall_cons); simpl; try apply vstrs_wf;
        constructor.
Qed.

Lemma ContextSummary_new_asdict R :
  ContextSummary_new (asdict_ContextSummary R) = Ok R.
Proof. destruct R. reflexivity. Qed.

(** * The claims *)

Lemma build_summary_30_45 `{PyRuntime} :
  build_summary self0 world_30_45 "s1" = Ok summary_30_45.
Proof. vm_compute. reflexivity. Qed.

Lemma generate_json `{PyRuntime} self w sid inc mw R :
  build_summary self w sid = Ok R ->
  generate self w sid "json" inc mw =
  Ok {| out_json := Some (_to_json R); out_text := None |}.
Proof. intros Hb. unfold generate. rewrite Hb. reflexivity. Qed.

Lemma decode_to_json R :
  wf_val (asdict_ContextSummary R) ->
  (do data <- json_loads (_to_json R); ContextSummary_new data) = Ok R.
Proof.
  intros Hwf. unfold _to_json. rewrite json_loads_dumps by exact Hwf.
  cbn [rbind]. apply ContextSummary_new_asdict.
Qed.

Lemma recover_after_save self w R base saved w' :
  wf_val (asdict_ContextSummary R) ->
  save self w {| out_json := Some (_to_json R); out_text := None |} base
    = (Ok saved, w') ->
  recover self w' base = Ok (Some R).
Proof.
  intros Hwf Hs. unfold save in Hs. cbn [out_json out_text] in Hs.
  set (p := os_path_join (str_or base (project_root self)) "session_summary.json")
    in *.
  destruct (write_file w (str_or base (project_root self)) p (Json (_to_json R)))
    as [w1|e] eqn:Ew; [|discriminate].
  inversion Hs; subst; clear Hs.
  assert (Hfs : fs w' !! p = Some (Json (_to_json R))).
  { unfold write_file in Ew.
    destruct (fs w !! _) as [[| | |]|]; try discriminate;
      destruct (fs w !! p) as [[| | |]|]; try discriminate;
      inversion Ew; subst; cbn [fs]; apply lookup_insert_eq. }
  unfold recover, path_exists, read_json. fold p. rewrite Hfs. cbn [negb].
  unfold _to_json. rewrite json_loads_dumps by exact Hwf. cbn [rbind].
  rewrite ContextSummary_new_asdict. reflexivity.
Qed.

(** C1. Every record that [generate] assembles survives the structured
    round trip: decoding its JSON serialization and calling the
    [ContextSummary] constructor on the decoded data gives back the same
    record, field for field, [generated_at] included; and so does
    [recover] on the file that [save] wrote for it. *)
Theorem recover_roundtrip `{PyRuntime} self w sid R :
  build_summary self w sid = Ok R ->
  (do data <- json_loads (_to_json R); ContextSummary_new data) = Ok R
  /\ (forall inc mw,
        generate self w sid "json" inc mw =
        Ok {| out_json := Some (_to_json R); out_text := None |})
  /\ (forall base saved w',
        save self w {| out_json := Some (_to_json R); out_text := None |} base
          = (Ok saved, w') ->
        recover self w' base = Ok (Some R)).
Proof.
  intros Hb. pose proof (build_summary_wf _ _ _ _ Hb) as Hwf.
  split; [now apply decode_to_json|].
  split; [intros; now apply generate_json|].
  intros base saved w' Hs. eapply recover_after_save; eauto.
Qed.

Lemma recover_roundtrip_witness :
  @build_summary example_runtime self0 world_30_45 "s1" = Ok summary_30_45
  /\ (do data <- json_loads (_to_json summary_30_45); ContextSummary_new data)
     = Ok summary_30_45.
Proof.
  split; [exact (@build_summary_30_45 example_runtime)|].
  exact (proj1 (@recover_roundtrip example_runtime self0 world_30_45 "s1"
                  summary_30_45 (@build_summary_30_45 example_runtime))).
Defined.

Lemma build_summary_fields `{PyRuntime} self w sid R :
  build_summary self w sid = Ok R ->
  version R = VStr "1.0"
  /\ generated_at R = VStr (timestamp self)
  /\ session_id R = VStr sid
  /\ exists cf kc,
       recovery_instructions R =
       asdict_RecoveryInstructions
         {| read_first := ["README.md"; "AGENTS.md"];
            continue_from := cf; key_context := kc |}.
Proof.
  unfold build_summary. intros Hb.
  destruct (_load_project_status self w) as [p|e]; [|discriminate].
  cbn [rbind] in Hb.
  destruct (_get_continue_from p) as [cf|e]; [|discriminate].
  cbn [rbind] in Hb.
  destruct (_get_key_context p) as [kc|e]; [|discriminate].
  cbn [rbind] in Hb. inversion Hb; subst; clear Hb. cbn.
  repeat split; eauto.
Qed.

Lemma generate_json_inv `{PyRuntime} self w sid inc mw outputs :
  generate self w sid "json" inc mw = Ok outputs ->
  exists R, build_summary self w sid = Ok R
            /\ out_json outputs = Some (_to_json R).
Proof.
  unfold generate. intros Hg.
  destruct (build_summary self w sid) as [R|e]; [|discriminate].
  cbn in Hg. inversion Hg; subst. now exists R.
Qed.

Lemma getitem_asdict_recovery R :
  py_getitem (asdict_ContextSummary R) "recovery_instructions"
  = Ok (recovery_instructions R).
Proof. destruct R. reflexivity. Qed.

(** C10. Whatever the collectors return, the record that [generate]
    assembles has [recovery_instructions.read_first] equal to the two
    names README.md and AGENTS.md, in that order; the structured output of
    [generate] decodes to that list. *)
Theorem read_first_constant `{PyRuntime} self w sid :
  (forall R,
     build_summary self w sid = Ok R ->
     py_getitem (recovery_instructions R) "read_first"
     = Ok (VList [VStr "README.md"; VStr "AGENTS.md"]))
  /\ (forall inc mw outputs,
        generate self w sid "json" inc mw = Ok outputs ->
        exists js,
          out_json outputs = Some js
          /\ (do v <- json_loads js;
              do r <- py_getitem v "recovery_instructions";
              py_getitem r "read_first")
             = Ok (VList [VStr "README.md"; VStr "AGENTS.md"])).
Proof.
  assert (H1 : forall R, build_summary self w sid = Ok R ->
               py_getitem (recovery_instructions R) "read_first"
               = Ok (VList [VStr "README.md"; VStr "AGENTS.md"])).
  { intros R Hb.
    destruct (build_summary_fields _ _ _ _ Hb) as (_ & _ & _ & cf & kc & ->).
    reflexivity. }
  split; [exact H1|].
  intros inc mw outputs Hg.
  destruct (generate_json_inv _ _ _ _ _ _ Hg) as (R & Hb & Hj).
  exists (_to_json R). split; [exact Hj|].
  unfold _to_json. rewrite json_loads_dumps by (eapply build_summary_wf; eauto).
  cbn [rbind]. rewrite getitem_asdict_recovery. cbn [rbind]. now apply H1.
Qed.

Lemma read_first_constant_witness :
  @build_summary example_runtime self0 world_30_45 "s1" = Ok summary_30_45
  /\ py_getitem (recovery_instructions summary_30_45) "read_first"
     = Ok (VList [VStr "README.md"; VStr "AGENTS.md"]).
Proof.
  split; [exact (@build_summary_30_45 example_runtime)|].
  exact (proj1 (@read_first_constant example_runtime self0 world_30_45 "s1")
           summary_30_45 (@build_summary_30_45 example_runtime)).
Defined.

Lemma shows_timestamp_of_build `{PyRuntime} self w sid R :
  build_summary self w sid = Ok R -> shows_timestamp (timestamp self) R.
Proof.
  intros Hb. pose proof (build_summary_wf _ _ _ _ Hb) as Hwf.
  destruct (build_summary_fields _ _ _ _ Hb) as (_ & Hg & _ & _).
  unfold shows_timestamp. split; [exact Hg|]. split.
  - unfold text_header, append. rewrite Hg. reflexivity.
  - unfold _to_json. rewrite json_loads_dumps by exact Hwf.
    cbn [rbind]. rewrite <- Hg. destruct R; reflexivity.
Qed.

(** C9. The time stamp is read from the clock once, when the summarizer
    is constructed; every record the instance assembles afterwards, in
    whatever state of the world, carries that value, and so do the header
    of its narrative and its structured rendering. *)
Theorem generated_at_fixed `{PyRuntime} w0 root w1 w2 sid1 sid2 R1 R2 :
  build_summary (__init__ w0 root) w1 sid1 = Ok R1 ->
  build_summary (__init__ w0 root) w2 sid2 = Ok R2 ->
  shows_timestamp (utc_now w0) R1 /\ shows_timestamp (utc_now w0) R2.
Proof.
  intros H1 H2.
  split; [exact (shows_timestamp_of_build _ _ _ _ H1)
         |exact (shows_timestamp_of_build _ _ _ _ H2)].
Qed.

Lemma build_summary_later :
  @build_summary example_runtime self0 (later world_30_45) "s2"
  = Ok (with_session summary_30_45 "s2").
Proof. vm_compute. reflexivity. Qed.

Lemma generated_at_fixed_witness :
  @shows_timestamp example_runtime "2025-01-01T00:00:00+00:00" summary_30_45
  /\ @shows_timestamp example_runtime "2025-01-01T00:00:00+00:00"
       (with_session summary_30_45 "s2").
Proof.
  exact (@generated_at_fixed example_runtime empty_world None
           world_30_45 (later world_30_45) "s1" "s2"
           summary_30_45 (with_session summary_30_45 "s2")
           (@build_summary_30_45 example_runtime) build_summary_later).
Defined.

(** ** Defaults *)

Lemma default_project_rejected :
  dict_get default_project "completion_rate" = None
  /\ ProjectStatus_new default_project = Raise TypeError.
Proof. split; reflexivity. Qed.

(** C2. With no AGENTS.md and no config/project.json the dict of default
    values reaches the [ProjectStatus] constructor without the field
    [completion_rate]: the constructor raises [TypeError] and so does the
    assembly, instead of returning the default project status.  The
    default technical decision is returned when there is no decisions
    document. *)
Theorem defaults_raise_TypeError `{PyRuntime} self w sid :
  path_exists w (os_path_join (project_root self) "AGENTS.md") = false ->
  path_exists w (os_path_join (os_path_join (project_root self) "config")
                   "project.json") = false ->
  path_exists w (os_path_join (os_path_join (project_root self) "docs")
                   "tech_decisions.md") = false ->
  _load_project_status self w = Raise TypeError
  /\ build_summary self w sid = Raise TypeError
  /\ _load_tech_decisions self w = default_decisions.
Proof.
  intros Ha Hc Hd.
  assert (Hp : _load_project_status self w = Raise TypeError).
  { unfold _load_project_status. rewrite Ha, Hc. reflexivity. }
  split; [exact Hp|]. split.
  - unfold build_summary. rewrite Hp. reflexivity.
  - unfold _load_tech_decisions. rewrite Hd. reflexivity.
Qed.

Lemma defaults_raise_TypeError_witness :
  _load_project_status self0 empty_world = Raise TypeError
  /\ @build_summary example_runtime self0 empty_world "s1" = Raise TypeError
  /\ @_load_tech_decisions example_runtime self0 empty_world = default_decisions.
Proof.
  apply (@defaults_raise_TypeError example_runtime self0 empty_world "s1");
    reflexivity.
Defined.

(** ** The narrative renderer *)

Lemma getattr_pending_tasks s :
  ContextSummary_getattr s "pending_tasks" = Raise AttributeError.
Proof. destruct s. reflexivity. Qed.

Lemma to_text_raises `{PyRuntime} summary max_words :
  is_raise (_to_text summary max_words).
Proof.
  unfold _to_text.
  destruct (text_project_status summary _) as [lines|e]; [|exact I].
  cbn [rbind]. unfold text_pending_tasks.
  rewrite getattr_pending_tasks. exact I.
Qed.

Lemma generate_text_raises `{PyRuntime} self w sid fmt inc mw :
  str_in fmt ["text"; "both"] = true ->
  is_raise (generate self w sid fmt inc mw).
Proof.
  intros Hf. unfold generate.
  destruct (build_summary self w sid) as [R|e]; [|exact I].
  cbn [rbind]. rewrite Hf.
  pose proof (to_text_raises R mw) as Hr.
  destruct (_to_text R mw); [destruct Hr|exact I].
Qed.

Lemma build_summary_pending `{PyRuntime} :
  build_summary self0 world_pending "s1" = Ok summary_pending.
Proof. vm_compute. reflexivity. Qed.

(** C3. The Pending Tasks block of [_to_text] reads [summary.pending_tasks],
    an attribute that [ContextSummary] does not have (the tasks are in
    [summary.project]): the renderer raises there for every record, so no
    narrative is ever returned and no bucket is shown.  On the record with
    the tasks 1 (high), 2 (medium), 3 (high), 4 (low) the exception is
    [AttributeError], and [generate] in the formats "text" and "both"
    fails with it. *)
Theorem pending_tasks_block_raises `{PyRuntime} :
  (forall summary max_words, is_raise (_to_text summary max_words))
  /\ build_summary self0 world_pending "s1" = Ok summary_pending
  /\ py_getitem (project summary_pending) "pending_tasks" = Ok four_tasks
  /\ _to_text summary_pending 2000 = Raise AttributeError
  /\ generate self0 world_pending "s1" "both" None 2000 = Raise AttributeError
  /\ generate self0 world_pending "s1" "text" None 2000 = Raise AttributeError.
Proof.
  split; [intros; apply to_text_raises|].
  split; [apply build_summary_pending|].
  repeat split; vm_compute; reflexivity.
Qed.

(** C4. With 30 boxes checked among 45 task lines and [total_tasks] set to
    45, the stored rate is within 1e-4 of 0.6667 and [format(rate, ".0%")]
    is "67%", which is what [key_context] holds.  The narrative does not
    show it: the Project Status line is built with a second percent sign,
    "(67%%)", and the renderer then raises at the Pending Tasks block.
    The rate is computed from the number of task lines of AGENTS.md and
    not from the field [total_tasks]: with 60 task lines the record has
    completed_tasks = 30, total_tasks = 45 and completion_rate = 0.5. *)
Theorem completion_percent_not_shown `{PyRuntime} :
  build_summary self0 world_30_45 "s1" = Ok summary_30_45
  /\ py_getitem (project summary_30_45) "completed_tasks" = Ok (VInt 30)
  /\ py_getitem (project summary_30_45) "total_tasks" = Ok (VInt 45)
  /\ (exists f,
        py_getitem (project summary_30_45) "completion_rate" = Ok (VFloat f)
        /\ (PrimFloat.abs (f - 0.6667) <=? 0.0001)%float = true)
  /\ format_percent (VFloat 0.6667) = Ok "67%"
  /\ py_getitem (recovery_instructions summary_30_45) "key_context"
     = Ok (VStr "Project - Phase 1, 67% complete")
  /\ text_project_status summary_30_45 [] =
     Ok [(nl ++ "## Project Status")%string;
         "**Project** - A coding project";
         "- Current Phase: Phase 1";
         "- Completion: 30/45 tasks (67%%)"]
  /\ _to_text summary_30_45 2000 = Raise AttributeError
  /\ (exists R,
        build_summary self0 world_30_of_60 "s1" = Ok R
        /\ py_getitem (project R) "completed_tasks" = Ok (VInt 30)
        /\ py_getitem (project R) "total_tasks" = Ok (VInt 45)
        /\ py_getitem (project R) "completion_rate" = Ok (VFloat 0.5)).
Proof.
  split; [apply build_summary_30_45|].
  do 2 (split; [reflexivity|]).
  split; [eexists; split; [reflexivity|vm_compute; reflexivity]|].
  do 4 (split; [vm_compute; reflexivity|]).
  eexists. split; [vm_compute; reflexivity|].
  repeat split; vm_compute; reflexivity.
Qed.

(** ** Recovery *)

Lemma dict_get_In d k v : dict_get d k = Some v -> In k (map fst d).
Proof.
  induction d as [|[k0 v0] d IH]; simpl; [discriminate|].
  destruct (String.eqb_spec k0 k) as [->|Hne]; auto.
Qed.

Lemma keywords_known_In fields d k :
  keywords_known fields d = true -> In k (map fst d) -> In k fields.
Proof.
  unfold keywords_known. intros Hk Hin.
  apply in_map_iff in Hin as ([k0 v0] & <- & Hin).
  rewrite forallb_forall in Hk. specialize (Hk _ Hin). simpl in Hk.
  apply existsb_exists in Hk as (f & Hf & Heq).
  apply String.eqb_eq in Heq. now subst.
Qed.

Lemma ContextSummary_new_missing d f :
  In f ContextSummary_fields -> dict_get d f = None ->
  ContextSummary_new (VDict d) = Raise TypeError.
Proof.
  intros Hf Hnone. unfold ContextSummary_new.
  destruct (keywords_known ContextSummary_fields d); [|reflexivity].
  simpl in Hf.
  repeat (destruct Hf as [<-|Hf]; [rewrite Hnone|]); try destruct Hf;
    repeat (match goal with
            | |- context [dict_get d ?k] => destruct (dict_get d k)
            end); reflexivity.
Qed.

Lemma ContextSummary_new_fields d R :
  ContextSummary_new (VDict d) = Ok R ->
  forall f v, dict_get d f = Some v <-> ContextSummary_getattr R f = Ok v.
Proof.
  unfold ContextSummary_new. intros Hn f v.
  destruct (keywords_known ContextSummary_fields d) eqn:Hk; [|discriminate].
  destruct (dict_get d "version") eqn:E1; [|discriminate].
  destruct (dict_get d "generated_at") eqn:E2; [|discriminate].
  destruct (dict_get d "session_id") eqn:E3; [|discriminate].
  destruct (dict_get d "project") eqn:E4; [|discriminate].
  destruct (dict_get d "tech_decisions") eqn:E5; [|discriminate].
  destruct (dict_get d "code_context") eqn:E6; [|discriminate].
  destruct (dict_get d "conversation_history") eqn:E7; [|discriminate].
  destruct (dict_get d "recovery_instructions") eqn:E8; [|discriminate].
  inversion Hn; subst; clear Hn.
  unfold ContextSummary_getattr. cbn [asdict_ContextSummary version
    generated_at session_id project tech_decisions code_context
    conversation_history recovery_instructions].
  split.
  - intros Hg.
    pose proof (keywords_known_In _ _ _ Hk (dict_get_In _ _ _ Hg)) as Hin.
    simpl in Hin.
    repeat (destruct Hin as [<-|Hin]; [simpl; congruence|]). destruct Hin.
  - intros Hg. cbn [dict_get] in Hg.
    repeat (match type of Hg with
            | context [String.eqb ?a f] =>
                destruct (String.eqb_spec a f) as [<-|_];
                [inversion Hg; subst; assumption|]
            end).
    discriminate.
Qed.

Lemma keywords_known_of_In fields d :
  (forall k, In k (map fst d) -> In k fields) ->
  keywords_known fields d = true.
Proof.
  intros Hk. unfold keywords_known. apply forallb_forall. intros [k v] Hin.
  apply existsb_exists. exists k. split; [|apply String.eqb_refl].
  apply Hk, in_map_iff. now exists (k, v).
Qed.

Lemma ContextSummary_new_total d :
  (forall k, In k (map fst d) -> In k ContextSummary_fields) ->
  (forall f, In f ContextSummary_fields -> dict_get d f <> None) ->
  exists R, ContextSummary_new (VDict d) = Ok R.
Proof.
  intros Hk Hall. unfold ContextSummary_new.
  rewrite (keywords_known_of_In _ _ Hk).
  assert (Hget : forall f, In f ContextSummary_fields ->
                 exists v, dict_get d f = Some v).
  { intros f Hf. specialize (Hall f Hf).
    destruct (dict_get d f) as [v|]; [now exists v|contradiction]. }
  destruct (Hget "version") as [v ->]; [cbn; tauto|].
  destruct (Hget "generated_at") as [g ->]; [cbn; tauto|].
  destruct (Hget "session_id") as [i ->]; [cbn; tauto|].
  destruct (Hget "project") as [p ->]; [cbn; tauto|].
  destruct (Hget "tech_decisions") as [t ->]; [cbn; tauto|].
  destruct (Hget "code_context") as [c ->]; [cbn; tauto|].
  destruct (Hget "conversation_history") as [h ->]; [cbn; tauto|].
  destruct (Hget "recovery_instructions") as [r ->]; [cbn; tauto|].
  eauto.
Qed.

(** C5, as the code has it.  [recover] tells absence from corruption.
    When there is no session_summary.json it returns [None].  When the file
    is there and its content decodes to an object that lacks a field of the
    record ([version], say), the constructor raises [TypeError] and the
    exception leaves [recover]; so does the decoder's exception when the
    content is not JSON.  With the file present [recover] never returns
    [None], and a record it returns has exactly the decoded fields: nothing
    is filled in by default.  Content that decodes to something other than
    an object, or to an object with a key that is no field, is refused with
    [TypeError] as well.  The types of the values are not looked at: an
    object whose keys are the eight fields is returned as a record,
    whatever the values are. *)
Theorem recover_absent_vs_corrupt self w base :
  let json_path :=
    os_path_join (str_or base (project_root self)) "session_summary.json" in
  (fs w !! json_path = None -> recover self w base = Ok None)
  /\ (forall ts d f,
        fs w !! json_path = Some (Json ts) ->
        json_loads ts = Ok (VDict d) ->
        In f ContextSummary_fields -> dict_get d f = None ->
        recover self w base = Raise TypeError)
  /\ (forall ts e,
        fs w !! json_path = Some (Json ts) ->
        json_loads ts = Raise e ->
        recover self w base = Raise e)
  /\ (forall e, fs w !! json_path = Some e -> recover self w base <> Ok None)
  /\ (forall R,
        recover self w base = Ok (Some R) ->
        exists ts d,
          fs w !! json_path = Some (Json ts)
          /\ json_loads ts = Ok (VDict d)
          /\ forall f v,
               dict_get d f = Some v <-> ContextSummary_getattr R f = Ok v)
  /\ (forall ts v,
        fs w !! json_path = Some (Json ts) ->
        json_loads ts = Ok v ->
        (forall d, v <> VDict d) ->
        recover self w base = Raise TypeError)
  /\ (forall ts d k,
        fs w !! json_path = Some (Json ts) ->
        json_loads ts = Ok (VDict d) ->
        In k (map fst d) -> ~ In k ContextSummary_fields ->
        recover self w base = Raise TypeError)
  /\ (forall ts d,
        fs w !! json_path = Some (Json ts) ->
        json_loads ts = Ok (VDict d) ->
        (forall k, In k (map fst d) -> In k ContextSummary_fields) ->
        (forall f, In f ContextSummary_fields -> dict_get d f <> None) ->
        exists R,
          recover self w base = Ok (Some R)
          /\ forall f v,
               dict_get d f = Some v <-> ContextSummary_getattr R f = Ok v).
Proof.
  intros json_path. unfold recover, path_exists, read_json. fold json_path.
  split; [|split; [|split; [|split; [|split; [|split; [|split]]]]]].
  - intros ->. reflexivity.
  - intros ts d f -> Hl Hf Hnone. cbn [negb]. rewrite Hl. cbn [rbind].
    rewrite (ContextSummary_new_missing d f Hf Hnone). reflexivity.
  - intros ts e -> Hl. cbn [negb]. rewrite Hl. reflexivity.
  - intros e ->. cbn [negb].
    destruct e as [| | c | ts]; try discriminate.
    destruct (json_loads ts) as [data|x]; [|discriminate].
    cbn [rbind]. destruct (ContextSummary_new data); discriminate.
  - intros R Hr.
    destruct (fs w !! json_path) as [[| | c | ts]|]; try discriminate.
    cbn [negb] in Hr.
    destruct (json_loads ts) as [data|x] eqn:El; [|discriminate].
    cbn [rbind] in Hr.
    destruct (ContextSummary_new data) as [R'|x] eqn:En; [|discriminate].
    inversion Hr; subst; clear Hr.
    destruct data as [| | | | | |d]; try discriminate.
    exists ts, d. split; [reflexivity|]. split; [exact El|].
    exact (ContextSummary_new_fields d R En).
  - intros ts v -> Hl Hnd. cbn [negb]. rewrite Hl. cbn [rbind].
    destruct v; try reflexivity. now destruct (Hnd entries).
  - intros ts d k -> Hl Hin Hnot. cbn [negb]. rewrite Hl. cbn [rbind].
    unfold ContextSummary_new.
    destruct (keywords_known ContextSummary_fields d) eqn:Hk; [|reflexivity].
    exfalso. apply Hnot. exact (keywords_known_In _ _ _ Hk Hin).
  - intros ts d -> Hl Hk Hall. cbn [negb]. rewrite Hl. cbn [rbind].
    destruct (ContextSummary_new_total d Hk Hall) as [R HR].
    exists R. rewrite HR. split; [reflexivity|].
    exact (ContextSummary_new_fields d R HR).
Qed.

Lemma recover_absent_vs_corrupt_witness :
  recover self0 empty_world None = Ok None
  /\ recover self0 world_corrupt None = Raise TypeError.
Proof.
  split.
  - apply (proj1 (recover_absent_vs_corrupt self0 empty_world None)).
    reflexivity.
  - apply (proj1 (proj2 (recover_absent_vs_corrupt self0 world_corrupt None))
             (json_dumps (VDict artifact_without_version))
             artifact_without_version "version");
      [reflexivity | vm_compute; reflexivity | simpl; auto | reflexivity].
Defined.

(** C5, as the claim states it, fails: an artifact whose fields have none
    of the types of the record (its [version] is the number 5, its
    [project] a string) does not match the shape of a summary record, and
    [recover] raises nothing: it returns the record with these values. *)
Lemma recover_accepts_mistyped_fields :
  spec_record_shape (asdict_ContextSummary untyped_summary) = false
  /\ json_loads (_to_json untyped_summary)
     = Ok (asdict_ContextSummary untyped_summary)
  /\ fs (world_artifact (_to_json untyped_summary))
       !! "/proj/session_summary.json"
     = Some (Json (_to_json untyped_summary))
  /\ recover self0 (world_artifact (_to_json untyped_summary)) None
     = Ok (Some untyped_summary).
Proof. repeat split; vm_compute; reflexivity. Qed.

(** ** Readiness *)

(** C7. [auto_detect] answers [True] exactly when the usage signal is
    strictly above 0.8: 0.81 gives [True], 0.80 gives [False].  When the
    signal cannot be obtained, because the estimate raises or because
    psutil fails inside it, the answer is [(False, 0.0)] and no exception
    leaves the method. *)
Theorem auto_detect_threshold :
  (forall u, auto_detect_on (Ok u) = ((0.8 <? u)%float, u))
  /\ auto_detect_on (Ok 0.81%float) = (true, 0.81%float)
  /\ auto_detect_on (Ok 0.80%float) = (false, 0.80%float)
  /\ (forall e, auto_detect_on (Raise e) = (false, 0%float))
  /\ (forall c t f g s e,
        auto_detect {| cwd := c; utc_now := t; fs := f; glob := g;
                       git_status := s; psutil_rss := Raise e |}
        = (false, 0%float))
  /\ (forall w,
        auto_detect w
        = ((0.8 <? _estimate_token_usage w)%float, _estimate_token_usage w))
  /\ auto_detect (world_rss 1698693120) = (true, 0.81%float)
  /\ auto_detect (world_rss 1677721600) = (false, 0.80%float).
Proof.
  repeat split; try reflexivity.
Qed.

(** ** The file list *)

Lemma fold_source_hits (f : string -> bool) xs : forall acc,
  fold_left (fun files rel_path =>
     if f rel_path
     then if (length files <? 10)%nat then files ++ [rel_path] else files
     else files) xs acc
  = acc ++ firstn (10 - length acc) (List.filter f xs).
Proof.
  induction xs as [|x xs IH]; intros acc; simpl.
  - now rewrite firstn_nil, app_nil_r.
  - destruct (f x) eqn:Ef; [|apply IH].
    destruct (Nat.ltb_spec (length acc) 10) as [Hlt|Hge].
    + rewrite IH, length_app. simpl.
      replace (10 - length acc)%nat with (S (10 - (length acc + 1)))%nat by lia.
      simpl. now rewrite <- app_assoc.
    + rewrite IH. replace (10 - length acc)%nat with 0%nat by lia.
      reflexivity.
Qed.

Lemma fold_config_hits (f : string -> bool) xs : forall acc,
  fold_left (fun files rel_path =>
     if f rel_path then files ++ [rel_path] else files) xs acc
  = acc ++ List.filter f xs.
Proof.
  induction xs as [|x xs IH]; intros acc; simpl.
  - now rewrite app_nil_r.
  - destruct (f x); rewrite IH; [now rewrite <- app_assoc|reflexivity].
Qed.

Lemma list_current_files_eq self w :
  _list_current_files self w
  = firstn 15 (firstn 10 (source_candidates self w) ++ config_candidates self w).
Proof.
  unfold _list_current_files, source_candidates, config_candidates, file_hits.
  cbn [fold_left src_patterns config_patterns flat_map].
  rewrite !fold_source_hits, !fold_config_hits. cbn [app length].
  rewrite !app_nil_r. f_equal.
  rewrite Nat.sub_0_r, <- app_assoc. f_equal.
  rewrite (take_app _ _ 10). f_equal.
  rewrite length_take. f_equal. lia.
Qed.

(** C8, as the code has it.  The source files are capped at 10 while they
    are collected; the config files follow them and the whole is cut to
    15.  So the list has at most 15 entries, keeps the order of the
    candidates, and is their first 15 whenever there are at most 10 source
    candidates. *)
Theorem current_files_bounded self w :
  _list_current_files self w
  = firstn 15 (firstn 10 (source_candidates self w) ++ config_candidates self w)
  /\ (length (_list_current_files self w) <= 15)%nat
  /\ _list_current_files self w `sublist_of` candidate_files self w
  /\ ((length (source_candidates self w) <= 10)%nat ->
      _list_current_files self w = firstn 15 (candidate_files self w)).
Proof.
  rewrite list_current_files_eq. repeat split.
  - rewrite length_take. lia.
  - etransitivity; [apply sublist_take|].
    apply sublist_app; [apply sublist_take|reflexivity].
  - intros Hle. unfold candidate_files.
    now rewrite (take_ge (source_candidates self w) 10) by exact Hle.
Qed.

Lemma current_files_bounded_witness :
  length (candidate_files self0 world_5_15) = 20%nat
  /\ _list_current_files self0 world_5_15
     = firstn 15 (candidate_files self0 world_5_15).
Proof.
  split; [reflexivity|].
  apply (proj2 (proj2 (proj2 (current_files_bounded self0 world_5_15)))).
  vm_compute. lia.
Defined.

(** C8, as the claim states it, fails: of twenty candidate files under
    src/ only the first ten are kept, not the first fifteen. *)
Lemma current_files_not_prefix :
  length (candidate_files self0 world_20_sources) = 20%nat
  /\ length (_list_current_files self0 world_20_sources) = 10%nat
  /\ _list_current_files self0 world_20_sources
     <> firstn 15 (candidate_files self0 world_20_sources).
Proof.
  split; [vm_compute; reflexivity|]. split; [vm_compute; reflexivity|].
  intros Heq. apply (f_equal (@length string)) in Heq.
  vm_compute in Heq. discriminate Heq.
Qed.

(** ** The Technical Decisions block *)

Lemma getitem_TechDecision d :
  py_getitem (asdict_TechDecision d) "decision" = Ok (VStr (decision d))
  /\ py_getitem (asdict_TechDecision d) "status" = Ok (VStr (status d))
  /\ py_getitem (asdict_TechDecision d) "reason" = Ok (VStr (reason d)).
Proof. repeat split. Qed.

Lemma decision_lines_asdict `{PyRuntime} d lines :
  decision_lines (asdict_TechDecision d) lines
  = Ok (lines ++ (if is_confirmed d then decision_entry d else [])).
Proof.
  destruct (getitem_TechDecision d) as (Hd & Hs & Hr).
  unfold decision_lines. rewrite Hs. cbn [rbind py_eq_str].
  unfold is_confirmed.
  destruct (String.eqb (status d) "confirmed"); [|now rewrite app_nil_r].
  rewrite Hd, Hr. cbn [rbind py_truthy py_str].
  unfold decision_entry, append.
  destruct (String.eqb (reason d) ""); cbn [negb].
  - reflexivity.
  - cbn [rbind py_slice_to py_str]. now rewrite <- app_assoc.
Qed.

Lemma for_each_decisions `{PyRuntime} ds : forall lines,
  for_each (map asdict_TechDecision ds) decision_lines lines
  = Ok (lines ++ flat_map decision_entry (List.filter is_confirmed ds)).
Proof.
  induction ds as [|d ds IH]; intros lines; cbn [map for_each List.filter].
  - now rewrite app_nil_r.
  - rewrite decision_lines_asdict. cbn [rbind]. rewrite IH.
    destruct (is_confirmed d); cbn [flat_map].
    + now rewrite <- app_assoc.
    + now rewrite app_nil_r.
Qed.

(** C6. The Technical Decisions block is never shown.  It comes after the
    Pending Tasks block, where [_to_text] raises for every record, so the
    renderer stops before it reaches the decisions.  On the record assembled
    from the example project, whose [tech_decisions] is the non-empty list
    of the default decision, the block alone would list that confirmed
    decision with its reason, but [_to_text] raises [AttributeError], and
    [generate] in the formats "text" and "both" fails with it: no narrative,
    and no Technical Decisions section, is returned. *)
Theorem decisions_block_not_reached `{PyRuntime} :
  (forall summary max_words, is_raise (_to_text summary max_words))
  /\ build_summary self0 world_30_45 "s1" = Ok summary_30_45
  /\ tech_decisions summary_30_45
     = VList (map asdict_TechDecision default_decisions)
  /\ text_tech_decisions summary_30_45 []
     = Ok (decisions_heading
           ++ ["- Standard architecture";
               "  Reason: Default decision for new projects"])
  /\ _to_text summary_30_45 2000 = Raise AttributeError
  /\ generate self0 world_30_45 "s1" "text" None 2000 = Raise AttributeError
  /\ generate self0 world_30_45 "s1" "both" None 2000 = Raise AttributeError.
Proof.
  split; [intros; apply to_text_raises|].
  split; [apply build_summary_30_45|].
  repeat split; vm_compute; reflexivity.
Qed.

(** * Further properties of the code *)

(** ** Stripping *)

Lemma lstrip_unfold s :
  lstrip s = match space_prefix s with Some r => lstrip r | None => s end.
Proof.
  destruct s as [|c s1]; [reflexivity|].
  change (lstrip (String c s1))
    with (if is_space c then lstrip s1
          else match s1 with
               | String d s2 =>
                   if is_space2 c d then lstrip s2
                   else match s2 with
                        | String e s3 =>
                            if is_space3 c d e then lstrip s3 else String c s1
                        | EmptyString => String c s1
                        end
               | EmptyString => String c s1
               end).
  unfold space_prefix.
  destruct (is_space c); [reflexivity|].
  destruct s1 as [|d s2]; [reflexivity|].
  destruct (is_space2 c d); [reflexivity|].
  destruct s2 as [|e s3]; [reflexivity|].
  destruct (is_space3 c d e); reflexivity.
Qed.

Lemma append_cons c (a b : string) :
  (String c a ++ b)%string = String c (a ++ b)%string.
Proof. reflexivity. Qed.

Lemma space_prefix_length s r :
  space_prefix s = Some r -> (String.length r < String.length s)%nat.
Proof.
  destruct s as [|c [|d [|e s]]]; cbn [space_prefix String.length];
    repeat match goal with |- context [if ?b then _ else _] => destruct b end;
    intros Heq; inversion Heq; subst; cbn [String.length]; lia.
Qed.

Lemma space_prefix_app a b r :
  space_prefix a = Some r -> space_prefix (a ++ b)%string = Some (r ++ b)%string.
Proof.
  destruct a as [|c [|d [|e a]]]; rewrite ?append_cons;
    cbn [space_prefix];
    repeat match goal with |- context [if ?x then _ else _] => destruct x end;
    intros Heq; inversion Heq; subst; rewrite ?append_cons; reflexivity.
Qed.

(** Induction on a string along the characters that [lstrip] removes. *)
Lemma lstrip_ind (P : string -> Prop) :
  (forall s, space_prefix s = None -> P s) ->
  (forall s r, space_prefix s = Some r -> P r -> P s) ->
  forall s, P s.
Proof.
  intros Hnone Hsome s.
  remember (String.length s) as n eqn:Hn.
  revert s Hn. induction n as [n IH] using lt_wf_ind. intros s ->.
  destruct (space_prefix s) as [r|] eqn:E; [|now apply Hnone].
  apply (Hsome s r E), (IH (String.length r)); [|reflexivity].
  now apply space_prefix_length.
Qed.

Lemma lstrip_clean s : starts_clean (lstrip s).
Proof.
  unfold starts_clean. induction s as [s E|s r E IH] using lstrip_ind;
    rewrite lstrip_unfold, E; assumption.
Qed.

Lemma lstrip_of_clean s : starts_clean s -> lstrip s = s.
Proof. unfold starts_clean. intros E. now rewrite lstrip_unfold, E. Qed.

(** White space followed by white space is white space. *)
Lemma lstrip_app_empty a b :
  lstrip a = "" -> lstrip b = "" -> lstrip (a ++ b)%string = "".
Proof.
  intros Ha Hb. induction a as [a E|a r E IH] using lstrip_ind.
  - rewrite lstrip_unfold, E in Ha. now subst a.
  - rewrite lstrip_unfold, E in Ha.
    rewrite lstrip_unfold, (space_prefix_app a b r E). now apply IH.
Qed.

Lemma rstrip_cons c s :
  rstrip (String c s)
  = match lstrip (String c s) with
    | EmptyString => EmptyString
    | _ => String c (rstrip s)
    end.
Proof. reflexivity. Qed.

(** What [rstrip] removes is white space. *)
Lemma rstrip_split s :
  exists ws, s = (rstrip s ++ ws)%string /\ lstrip ws = "".
Proof.
  induction s as [|c s [ws [Hs Hws]]]; [now exists ""|].
  rewrite rstrip_cons. destruct (lstrip (String c s)) as [|c' t] eqn:E.
  - exists (String c s). now split.
  - exists ws. split; [|exact Hws]. rewrite append_cons. now rewrite <- Hs.
Qed.

Lemma rstrip_clean s : starts_clean s -> starts_clean (rstrip s).
Proof.
  unfold starts_clean. intros Hs.
  destruct (space_prefix (rstrip s)) as [r|] eqn:E; [|reflexivity].
  destruct (rstrip_split s) as [ws [Heq _]].
  apply (space_prefix_app _ ws) in E. rewrite <- Heq, Hs in E. discriminate E.
Qed.

Lemma rstrip_idem s : rstrip (rstrip s) = rstrip s.
Proof.
  induction s as [|c s IH]; [reflexivity|].
  rewrite rstrip_cons. destruct (lstrip (String c s)) as [|c' t] eqn:E;
    [reflexivity|].
  rewrite rstrip_cons, IH.
  destruct (lstrip (String c (rstrip s))) as [|c'' t'] eqn:E'; [|reflexivity].
  destruct (rstrip_split s) as [ws [Heq Hws]].
  pose proof (lstrip_app_empty _ _ E' Hws) as Hall.
  rewrite append_cons, <- Heq, E in Hall. discriminate Hall.
Qed.

Lemma py_strip_idem s : py_strip (py_strip s) = py_strip s.
Proof.
  unfold py_strip.
  rewrite (lstrip_of_clean (rstrip (lstrip s)))
    by (apply rstrip_clean, lstrip_clean).
  apply rstrip_idem.
Qed.

(** White space of more than one byte is stripped as well, and a line of
    git made of it is dropped. *)
Lemma py_strip_wide_space :
  py_strip (ideographic_space ++ "a b" ++ no_break_space ++ " ")%string = "a b"
  /\ py_strip (ideographic_space ++ no_break_space)%string = ""
  /\ _get_recent_changes self0 world_git_wide_space
     = ["M src/app.py"; "?? notes.txt"].
Proof. repeat split; vm_compute; reflexivity. Qed.

(** ** The collectors *)

Lemma default_decisions_stripped :
  Forall (fun d => status d = "confirmed"
                   /\ py_strip (decision d) = decision d
                   /\ py_strip (reason d) = reason d) default_decisions.
Proof. repeat constructor. Qed.

Lemma load_tech_decisions_inv `{PyRuntime} self w :
  _load_tech_decisions self w <> []
  /\ (length (_load_tech_decisions self w) <= 10)%nat
  /\ Forall (fun d => status d = "confirmed"
                      /\ py_strip (decision d) = decision d
                      /\ py_strip (reason d) = reason d)
            (_load_tech_decisions self w).
Proof.
  assert (Hdef : default_decisions <> []
                 /\ (length default_decisions <= 10)%nat
                 /\ Forall (fun d => status d = "confirmed"
                      /\ py_strip (decision d) = decision d
                      /\ py_strip (reason d) = reason d) default_decisions).
  { split; [discriminate|]. split; [simpl; lia|apply default_decisions_stripped]. }
  unfold _load_tech_decisions.
  destruct (negb (path_exists w _)); [exact Hdef|].
  destruct (read_text w _) as [content|e]; cbn [rbind try_except];
    [|exact Hdef].
  set (ps := firstn 10 (re_findall_decisions content)).
  assert (Hlen : (length ps <= 10)%nat) by (subst ps; rewrite length_take; lia).
  destruct ps as [|dr ps']; [exact Hdef|]. cbn [map].
  split; [discriminate|].
  split; [cbn [length] in *; now rewrite length_map|].
  constructor; [cbn; repeat split; apply py_strip_idem|].
  apply Forall_forall. intros d Hd. apply list_elem_of_In in Hd.
  apply in_map_iff in Hd as (x & <- & _). cbn.
  repeat split; apply py_strip_idem.
Qed.

(** X1. [_load_tech_decisions] never returns an empty list and never more
    than ten decisions; every decision it returns has the status
    "confirmed", and its text and its reason carry no surrounding white
    space.  This holds whatever the decisions document contains and
    whatever the pattern matches in it. *)
Theorem tech_decisions_invariant `{PyRuntime} self w :
  _load_tech_decisions self w <> []
  /\ (length (_load_tech_decisions self w) <= 10)%nat
  /\ Forall (fun d => status d = "confirmed"
                      /\ py_strip (decision d) = decision d
                      /\ py_strip (reason d) = reason d)
            (_load_tech_decisions self w).
Proof. apply load_tech_decisions_inv. Qed.

Lemma build_summary_inv `{PyRuntime} self w sid R :
  build_summary self w sid = Ok R ->
  exists p cf kc,
    _load_project_status self w = Ok p
    /\ _get_continue_from p = Ok cf
    /\ _get_key_context p = Ok kc
    /\ R = {| version := VStr "1.0";
              generated_at := VStr (timestamp self);
              session_id := VStr sid;
              project := asdict_ProjectStatus p;
              tech_decisions :=
                VList (map asdict_TechDecision (_load_tech_decisions self w));
              code_context := asdict_CodeContext (_load_code_context self w);
              conversation_history :=
                asdict_ConversationHistory _load_conversation_history;
              recovery_instructions :=
                asdict_RecoveryInstructions
                  {| read_first := ["README.md"; "AGENTS.md"];
                     continue_from := cf; key_context := kc |} |}.
Proof.
  unfold build_summary. intros Hb.
  destruct (_load_project_status self w) as [p|e]; [|discriminate].
  cbn [rbind] in Hb.
  destruct (_get_continue_from p) as [cf|e] eqn:Ec; [|discriminate].
  cbn [rbind] in Hb.
  destruct (_get_key_context p) as [kc|e] eqn:Ek; [|discriminate].
  cbn [rbind] in Hb. inversion Hb; subst; clear Hb.
  exists p, cf, kc. repeat split; assumption.
Qed.

Lemma filter_all_confirmed ds :
  Forall (fun d => status d = "confirmed") ds ->
  List.filter is_confirmed ds = ds.
Proof.
  intros Hall. apply forallb_filter_id. apply forallb_forall.
  intros d Hd. rewrite Forall_forall in Hall.
  unfold is_confirmed. apply String.eqb_eq. apply Hall.
  now apply list_elem_of_In.
Qed.

(** X2. On every record that [generate] assembles, the Technical Decisions
    block of the narrative lists the first five of the loaded decisions,
    all of them, each with its reason: none is filtered out, because the
    loader only produces confirmed decisions. *)
Theorem assembled_decisions_all_listed `{PyRuntime} self w sid R lines :
  build_summary self w sid = Ok R ->
  text_tech_decisions R lines
  = Ok (lines ++ decisions_heading
          ++ flat_map decision_entry (firstn 5 (_load_tech_decisions self w))).
Proof.
  intros Hb. destruct (build_summary_inv _ _ _ _ Hb) as (p & cf & kc & _ & _ & _ & ->).
  destruct (load_tech_decisions_inv self w) as (Hne & _ & Hall).
  unfold text_tech_decisions. cbn [tech_decisions].
  destruct (_load_tech_decisions self w) as [|d0 ds0] eqn:E; [contradiction|].
  cbn [py_truthy map py_slice_to rbind].
  rewrite <- (map_cons asdict_TechDecision d0 ds0), firstn_map.
  cbn [py_iter rbind]. rewrite for_each_decisions.
  rewrite filter_all_confirmed.
  - unfold append, decisions_heading. now rewrite <- !app_assoc.
  - apply Forall_take. eapply Forall_impl; [exact Hall|].
    intros d Hd. apply Hd.
Qed.

Lemma assembled_decisions_all_listed_witness :
  @text_tech_decisions example_runtime summary_30_45 []
  = Ok ([] ++ decisions_heading
           ++ flat_map decision_entry
                (firstn 5 (@_load_tech_decisions example_runtime self0 world_30_45))).
Proof.
  exact (@assembled_decisions_all_listed example_runtime self0 world_30_45 "s1"
           summary_30_45 [] (@build_summary_30_45 example_runtime)).
Defined.

Lemma fold_changes_clean lines : forall acc,
  Forall clean_entry acc ->
  Forall clean_entry
    (fold_left (fun changes line =>
        if negb (String.eqb (py_strip line) "")
        then changes ++ [py_strip line] else changes) lines acc).
Proof.
  induction lines as [|l lines IH]; intros acc Hacc; cbn [fold_left];
    [exact Hacc|].
  apply IH. destruct (String.eqb_spec (py_strip l) "") as [He|Hne];
    cbn [negb]; [exact Hacc|].
  apply Forall_app. split; [exact Hacc|].
  constructor; [|constructor]. split; [exact Hne|apply py_strip_idem].
Qed.

(** X3. [_get_recent_changes] returns at most five entries; none of them is
    empty and none has white space around it.  When git cannot be run, or
    ends with a return code other than 0, the list is empty and nothing is
    raised. *)
Theorem recent_changes_clean self w :
  (length (_get_recent_changes self w) <= 5)%nat
  /\ Forall clean_entry (_get_recent_changes self w)
  /\ (forall c t f g r e,
        _get_recent_changes self
          {| cwd := c; utc_now := t; fs := f; glob := g;
             git_status := fun _ => Raise e; psutil_rss := r |} = [])
  /\ (forall c t f g r code out,
        code <> 0 ->
        _get_recent_changes self
          {| cwd := c; utc_now := t; fs := f; glob := g;
             git_status := fun _ => Ok (code, out); psutil_rss := r |} = []).
Proof.
  split; [unfold _get_recent_changes; rewrite length_take; lia|].
  split.
  - unfold _get_recent_changes. apply Forall_take.
    destruct (git_status w _) as [[code out]|e]; cbn [rbind try_except];
      [|constructor].
    destruct (code =? 0); cbn [try_except]; [|constructor].
    apply fold_changes_clean. constructor.
  - split; [reflexivity|].
    intros c t f g r code out Hc. unfold _get_recent_changes.
    cbn [git_status rbind]. apply Z.eqb_neq in Hc. now rewrite Hc.
Qed.

Lemma recent_changes_clean_witness :
  _get_recent_changes self0 world_git = ["M src/app.py"; "?? notes.txt"]
  /\ _get_recent_changes self0
       {| cwd := "/proj"; utc_now := ""; fs := ∅; glob := fun _ _ => [];
          git_status := fun _ => Ok (128, "fatal: not a git repository");
          psutil_rss := Raise OSError |} = [].
Proof.
  split; [vm_compute; reflexivity|].
  apply (proj2 (proj2 (proj2 (recent_changes_clean self0 empty_world)))).
  discriminate.
Defined.

Lemma fold_append_if {A B : Type} (f : A -> bool) (g : A -> B) xs :
  forall acc,
  fold_left (fun acc x => if f x then acc ++ [g x] else acc) xs acc
  = acc ++ map g (List.filter f xs).
Proof.
  induction xs as [|x xs IH]; intros acc; cbn [fold_left List.filter map].
  - now rewrite app_nil_r.
  - rewrite IH. destruct (f x); [now rewrite <- app_assoc|reflexivity].
Qed.

Lemma detect_architecture_eq self w :
  _detect_architecture self w
  = firstn 5 (existing_dirs self w ++ existing_labels self w).
Proof.
  unfold _detect_architecture, existing_dirs, existing_labels.
  rewrite (fold_append_if
             (fun d => path_exists w (os_path_join (project_root self) d))
             (fun d => d)).
  rewrite (fold_append_if
             (fun fp => path_exists w (os_path_join (project_root self) (fst fp)))
             snd).
  now rewrite map_id.
Qed.

(** X4. [_detect_architecture] reports the existing directories among src,
    tests, config, docs, scripts, then the labels of the existing project
    files, cut to five entries.  So when the five directories all exist
    the result is exactly their names, and no project type (Python,
    Node.js, Docker, ...) is reported whatever files are there. *)
Theorem architecture_patterns_cut self w :
  _detect_architecture self w
  = firstn 5 (existing_dirs self w ++ existing_labels self w)
  /\ (length (_detect_architecture self w) <= 5)%nat
  /\ (existing_dirs self w = architecture_dirs ->
      _detect_architecture self w = architecture_dirs).
Proof.
  rewrite detect_architecture_eq. split; [reflexivity|].
  split; [rewrite length_take; lia|].
  intros ->. reflexivity.
Qed.

Lemma architecture_patterns_cut_witness :
  existing_labels self0 world_all_dirs = ["Python project"; "OpenCode workflow"]
  /\ _detect_architecture self0 world_all_dirs = architecture_dirs.
Proof.
  split; [vm_compute; reflexivity|].
  apply (proj2 (proj2 (architecture_patterns_cut self0 world_all_dirs))).
  vm_compute. reflexivity.
Defined.

(** X5. The two source patterns overlap: a regular file matched by
    src/**/*.py is matched by src/**/* again, and [_list_current_files]
    lists it twice when the candidates are few enough to be all kept. *)
Theorem python_file_listed_twice self w f :
  In f (file_hits self w "src/**/*.py") ->
  In f (file_hits self w "src/**/*") ->
  (length (candidate_files self w) <= 10)%nat ->
  (2 <= count_occ string_dec (_list_current_files self w) f)%nat.
Proof.
  intros Hpy Hall Hlen. rewrite list_current_files_eq.
  unfold candidate_files in Hlen. rewrite length_app in Hlen.
  rewrite (take_ge (source_candidates self w) 10) by lia.
  rewrite take_ge by (rewrite length_app; lia).
  unfold source_candidates. cbn [src_patterns flat_map].
  rewrite !count_occ_app.
  apply (count_occ_In string_dec) in Hpy.
  apply (count_occ_In string_dec) in Hall. lia.
Qed.

Lemma python_file_listed_twice_witness :
  _list_current_files self0 world_one_module = ["src/app.py"; "src/app.py"]
  /\ (2 <= count_occ string_dec (_list_current_files self0 world_one_module)
             "src/app.py")%nat.
Proof.
  split; [vm_compute; reflexivity|].
  apply (python_file_listed_twice self0 world_one_module "src/app.py").
  - vm_compute. auto.
  - vm_compute. auto.
  - vm_compute. lia.
Defined.

(** ** The project status *)

Lemma dict_get_set_eq d k v : dict_get (dict_set d k v) k = Some v.
Proof.
  induction d as [|[k0 v0] d IH]; cbn [dict_set dict_get].
  - now rewrite String.eqb_refl.
  - destruct (String.eqb k0 k) eqn:E; cbn [dict_get]; rewrite E;
      [reflexivity|exact IH].
Qed.

Lemma dict_get_set_ne d k k' v :
  k <> k' -> dict_get (dict_set d k v) k' = dict_get d k'.
Proof.
  intros Hne. induction d as [|[k0 v0] d IH]; cbn [dict_set dict_get].
  - apply String.eqb_neq in Hne. now rewrite Hne.
  - destruct (String.eqb_spec k0 k) as [->|Hk]; cbn [dict_get].
    + apply String.eqb_neq in Hne. now rewrite Hne.
    + now rewrite IH.
Qed.

Lemma dict_get_fold_notin cfg : forall d k,
  ~ In k (map fst cfg) ->
  dict_get (fold_left (fun d kv => dict_set d (fst kv) (snd kv)) cfg d) k
  = dict_get d k.
Proof.
  induction cfg as [|[k0 v0] cfg IH]; intros d k Hnotin; cbn [fold_left];
    [reflexivity|].
  cbn [map fst In] in Hnotin.
  rewrite IH by tauto. cbn [fst snd].
  apply dict_get_set_ne. tauto.
Qed.

Lemma dict_get_fold_in cfg : forall d k v,
  List.NoDup (map fst cfg) -> dict_get cfg k = Some v ->
  dict_get (fold_left (fun d kv => dict_set d (fst kv) (snd kv)) cfg d) k
  = Some v.
Proof.
  induction cfg as [|[k0 v0] cfg IH]; intros d k v Hnd Hg;
    cbn [fold_left dict_get map fst snd] in *; [discriminate|].
  inversion Hnd as [|? ? Hnotin Hnd']; subst.
  destruct (String.eqb_spec k0 k) as [->|Hne].
  - inversion Hg; subst. rewrite dict_get_fold_notin by exact Hnotin.
    apply dict_get_set_eq.
  - now apply IH.
Qed.

Lemma dict_fold_keys cfg : forall d k,
  In k (map fst (fold_left (fun d kv => dict_set d (fst kv) (snd kv)) cfg d)) ->
  In k (map fst d) \/ In k (map fst cfg).
Proof.
  induction cfg as [|[k0 v0] cfg IH]; intros d k Hin; cbn [fold_left] in Hin;
    [now left|].
  destruct (IH _ _ Hin) as [Hd|Hc]; [|right; now right].
  cbn [fst snd] in Hd.
  destruct (dict_set_keys _ _ _ _ Hd) as [->|Hd']; [right; now left|now left].
Qed.

Lemma dict_get_of_In d k : In k (map fst d) -> exists v, dict_get d k = Some v.
Proof.
  induction d as [|[k0 v0] d IH]; cbn [map fst In dict_get]; [tauto|].
  intros [->|Hin].
  - rewrite String.eqb_refl. eauto.
  - destruct (String.eqb k0 k); eauto.
Qed.

Lemma dict_get_fold_some cfg d k :
  (exists v, dict_get d k = Some v) \/ In k (map fst cfg) ->
  exists v,
    dict_get (fold_left (fun d kv => dict_set d (fst kv) (snd kv)) cfg d) k
    = Some v.
Proof.
  revert d. induction cfg as [|[k0 v0] cfg IH]; intros d Hk;
    cbn [fold_left fst snd].
  - destruct Hk as [Hk|[]]. exact Hk.
  - apply IH. cbn [map fst In] in Hk.
    destruct (String.eqb_spec k0 k) as [->|Hne].
    + left. rewrite dict_get_set_eq. eauto.
    + destruct Hk as [[v Hv]|[Heq|Hin]]; [left|contradiction|now right].
      rewrite dict_get_set_ne by exact Hne. eauto.
Qed.

Lemma getitem_asdict_ProjectStatus p :
  py_getitem (asdict_ProjectStatus p) "name" = Ok (name p)
  /\ py_getitem (asdict_ProjectStatus p) "description" = Ok (description p)
  /\ py_getitem (asdict_ProjectStatus p) "phase" = Ok (phase p)
  /\ py_getitem (asdict_ProjectStatus p) "total_tasks" = Ok (total_tasks p)
  /\ py_getitem (asdict_ProjectStatus p) "completed_tasks"
     = Ok (completed_tasks p)
  /\ py_getitem (asdict_ProjectStatus p) "completion_rate"
     = Ok (completion_rate p)
  /\ py_getitem (asdict_ProjectStatus p) "pending_tasks" = Ok (pending_tasks p).
Proof. repeat split. Qed.

Lemma ProjectStatus_new_fields d p :
  ProjectStatus_new d = Ok p ->
  forall k v,
    dict_get d k = Some v -> py_getitem (asdict_ProjectStatus p) k = Ok v.
Proof.
  unfold ProjectStatus_new. intros Hn k v Hg.
  destruct (keywords_known ProjectStatus_fields d) eqn:Hk; [|discriminate].
  destruct (dict_get d "name") eqn:E1; [|discriminate].
  destruct (dict_get d "description") eqn:E2; [|discriminate].
  destruct (dict_get d "phase") eqn:E3; [|discriminate].
  destruct (dict_get d "total_tasks") eqn:E4; [|discriminate].
  destruct (dict_get d "completed_tasks") eqn:E5; [|discriminate].
  destruct (dict_get d "completion_rate") eqn:E6; [|discriminate].
  destruct (dict_get d "pending_tasks") eqn:E7; [|discriminate].
  inversion Hn; subst; clear Hn.
  pose proof (keywords_known_In _ _ _ Hk (dict_get_In _ _ _ Hg)) as Hin.
  cbn [ProjectStatus_fields In] in Hin.
  repeat (destruct Hin as [<-|Hin]; [cbn; congruence|]). destruct Hin.
Qed.

Lemma ProjectStatus_new_ok d :
  keywords_known ProjectStatus_fields d = true ->
  (forall k, In k ProjectStatus_fields -> exists v, dict_get d k = Some v) ->
  exists p, ProjectStatus_new d = Ok p.
Proof.
  intros Hk Hall. unfold ProjectStatus_new. rewrite Hk.
  destruct (Hall "name") as [v1 ->]; [cbn; tauto|].
  destruct (Hall "description") as [v2 ->]; [cbn; tauto|].
  destruct (Hall "phase") as [v3 ->]; [cbn; tauto|].
  destruct (Hall "total_tasks") as [v4 ->]; [cbn; tauto|].
  destruct (Hall "completed_tasks") as [v5 ->]; [cbn; tauto|].
  destruct (Hall "completion_rate") as [v6 ->]; [cbn; tauto|].
  destruct (Hall "pending_tasks") as [v7 ->]; [cbn; tauto|].
  eauto.
Qed.

Lemma load_project_status_no_config self w :
  path_exists w (config_path self) = false ->
  _load_project_status self w = ProjectStatus_new (agents_project self w).
Proof.
  intros Hc. unfold _load_project_status. fold (config_path self).
  rewrite Hc. reflexivity.
Qed.

Lemma load_project_status_config self w cfg :
  read_json w (config_path self) = Ok (VDict cfg) ->
  _load_project_status self w
  = ProjectStatus_new
      (fold_left (fun d kv => dict_set d (fst kv) (snd kv)) cfg
         (agents_project self w))
  /\ List.NoDup (map fst cfg).
Proof.
  intros Hr. split.
  - unfold _load_project_status. fold (config_path self).
    assert (He : path_exists w (config_path self) = true).
    { unfold read_json in Hr. unfold path_exists.
      destruct (fs w !! config_path self); [reflexivity|discriminate]. }
    rewrite He, Hr. reflexivity.
  - unfold read_json in Hr.
    destruct (fs w !! config_path self) as [[| | |ts]|]; try discriminate.
    apply json_loads_wf in Hr. now inversion Hr.
Qed.

(** X6. A config/project.json that holds a JSON object is applied after
    the values taken from AGENTS.md and wins: every key of the object ends
    up as the field of that name with the value of the object, and a field
    the object does not mention keeps the value it had before. *)
Theorem config_overrides_fields self w cfg p :
  read_json w (config_path self) = Ok (VDict cfg) ->
  _load_project_status self w = Ok p ->
  (forall k v,
     dict_get cfg k = Some v ->
     py_getitem (asdict_ProjectStatus p) k = Ok v)
  /\ (forall k v,
        dict_get cfg k = None ->
        dict_get (agents_project self w) k = Some v ->
        py_getitem (asdict_ProjectStatus p) k = Ok v).
Proof.
  intros Hr Hp. destruct (load_project_status_config _ _ _ Hr) as [Heq Hnd].
  rewrite Heq in Hp. split.
  - intros k v Hg. apply (ProjectStatus_new_fields _ _ Hp).
    now apply dict_get_fold_in.
  - intros k v Hnone Hg. apply (ProjectStatus_new_fields _ _ Hp).
    rewrite dict_get_fold_notin; [exact Hg|].
    intros Hin. destruct (dict_get_of_In _ _ Hin) as [x Hx]. congruence.
Qed.

Lemma config_overrides_fields_witness :
  py_getitem (asdict_ProjectStatus
                {| name := VStr "Project";
                   description := VStr "A coding project";
                   phase := VInt 1; total_tasks := VInt 45;
                   completed_tasks := VInt 30;
                   completion_rate := VFloat (30 / 45)%float;
                   pending_tasks := VList [] |}) "total_tasks"
  = Ok (VInt 45).
Proof.
  apply (proj1 (config_overrides_fields self0 world_30_45
                  [("total_tasks", VInt 45)] _
                  ltac:(vm_compute; reflexivity)
                  ltac:(vm_compute; reflexivity))).
  reflexivity.
Defined.

(** X7. A key in the object of config/project.json that is not a field of
    [ProjectStatus] is not ignored: it reaches the constructor as an
    unexpected keyword, and [_load_project_status] raises [TypeError]. *)
Theorem unknown_config_key_raises self w cfg k v :
  read_json w (config_path self) = Ok (VDict cfg) ->
  dict_get cfg k = Some v ->
  ~ In k ProjectStatus_fields ->
  _load_project_status self w = Raise TypeError.
Proof.
  intros Hr Hg Hnot. destruct (load_project_status_config _ _ _ Hr) as [-> Hnd].
  unfold ProjectStatus_new.
  destruct (keywords_known ProjectStatus_fields _) eqn:Hk; [|reflexivity].
  exfalso. apply Hnot. eapply keywords_known_In; [exact Hk|].
  eapply dict_get_In. apply dict_get_fold_in; eauto.
Qed.

Lemma unknown_config_key_raises_witness :
  _load_project_status self0 world_config_owner = Raise TypeError.
Proof.
  apply (unknown_config_key_raises self0 world_config_owner config_with_owner
           "owner" (VStr "me")).
  - vm_compute. reflexivity.
  - reflexivity.
  - cbn. intuition discriminate.
Defined.

Lemma agents_project_read self w content :
  read_text w (os_path_join (project_root self) "AGENTS.md") = Ok content ->
  agents_project self w = parse_agents content default_project.
Proof.
  intros Hr. unfold agents_project.
  assert (He : path_exists w (os_path_join (project_root self) "AGENTS.md") = true).
  { unfold read_text in Hr. unfold path_exists.
    destruct (fs w !! _); [reflexivity|discriminate]. }
  rewrite He, Hr. reflexivity.
Qed.

(** X8. Without a config file, AGENTS.md only sets two fields.  When
    [_load_project_status] returns, [completed_tasks] is the number of
    "[x]" and check marks in the file and [completion_rate] is a number,
    while the name, the description, the phase, [total_tasks] = 50 and the
    empty list of pending tasks are the defaults: the total counted in the
    file is not stored. *)
Theorem agents_sets_two_fields self w content p :
  read_text w (os_path_join (project_root self) "AGENTS.md") = Ok content ->
  path_exists w (config_path self) = false ->
  _load_project_status self w = Ok p ->
  name p = VStr "Project"
  /\ description p = VStr "A coding project"
  /\ phase p = VInt 1
  /\ total_tasks p = VInt 50
  /\ pending_tasks p = VList []
  /\ completed_tasks p
     = VInt (str_count content "[x]" + str_count content "✅")
  /\ (completion_rate p = VInt 0 \/ exists f, completion_rate p = VFloat f).
Proof.
  intros Hr Hc Hp.
  rewrite (load_project_status_no_config _ _ Hc) in Hp.
  rewrite (agents_project_read _ _ _ Hr) in Hp.
  unfold parse_agents in Hp.
  set (c := str_count content "[x]" + str_count content "✅") in *.
  clearbody c.
  destruct (0 <? _).
  - destruct (int_truediv c _) as [q|e]; cbn [rbind] in Hp.
    + vm_compute in Hp. inversion Hp; subst; cbn. repeat split; eauto.
    + vm_compute in Hp. discriminate.
  - vm_compute in Hp. inversion Hp; subst; cbn. repeat split; eauto.
Qed.

Lemma agents_sets_two_fields_witness :
  total_tasks {| name := VStr "Project";
                 description := VStr "A coding project";
                 phase := VInt 1; total_tasks := VInt 50;
                 completed_tasks := VInt 2; completion_rate := VInt 0;
                 pending_tasks := VList [] |} = VInt 50.
Proof.
  apply (agents_sets_two_fields self0 world_boxes_only "[x] one [x] two" _
           ltac:(vm_compute; reflexivity) ltac:(vm_compute; reflexivity)
           ltac:(vm_compute; reflexivity)).
Defined.

(** X9. When AGENTS.md can be read, mentions no task ("Task" or its
    Chinese word) and there is no config file, the assembly succeeds: the
    rate is the integer 0 without any division, the record counts the
    checked boxes, and the recovery instructions read "Phase 1 completion"
    and "Project - Phase 1, 0% complete". *)
Theorem no_task_word_gives_zero_rate `{PyRuntime} self w sid content :
  read_text w (os_path_join (project_root self) "AGENTS.md") = Ok content ->
  str_count content "任务" + str_count content "Task" = 0 ->
  path_exists w (config_path self) = false ->
  exists R,
    build_summary self w sid = Ok R
    /\ project R =
       VDict [("name", VStr "Project");
              ("description", VStr "A coding project");
              ("phase", VInt 1);
              ("total_tasks", VInt 50);
              ("completed_tasks",
               VInt (str_count content "[x]" + str_count content "✅"));
              ("completion_rate", VInt 0);
              ("pending_tasks", VList [])]
    /\ recovery_instructions R =
       VDict [("read_first", VList [VStr "README.md"; VStr "AGENTS.md"]);
              ("continue_from", VStr "Phase 1 completion");
              ("key_context", VStr "Project - Phase 1, 0% complete")].
Proof.
  intros Hr Ht Hc. unfold build_summary.
  rewrite (load_project_status_no_config _ _ Hc).
  rewrite (agents_project_read _ _ _ Hr).
  unfold parse_agents. rewrite Ht.
  set (c := str_count content "[x]" + str_count content "✅").
  clearbody c.
  change (ProjectStatus_new _)
    with (Ok {| name := VStr "Project";
                description := VStr "A coding project";
                phase := VInt 1; total_tasks := VInt 50;
                completed_tasks := VInt c; completion_rate := VInt 0;
                pending_tasks := VList [] |}).
  cbn [rbind].
  change (_get_continue_from _) with (Ok "Phase 1 completion").
  cbn [rbind].
  assert (Hk : _get_key_context
                 {| name := VStr "Project";
                    description := VStr "A coding project";
                    phase := VInt 1; total_tasks := VInt 50;
                    completed_tasks := VInt c; completion_rate := VInt 0;
                    pending_tasks := VList [] |}
               = Ok "Project - Phase 1, 0% complete").
  { unfold _get_key_context. cbn [completion_rate name phase py_str].
    assert (Hf : format_percent (VInt 0) = Ok "0%") by (vm_compute; reflexivity).
    rewrite Hf. reflexivity. }
  rewrite Hk. cbn [rbind].
  eexists. split; [reflexivity|]. split; reflexivity.
Qed.

Lemma no_task_word_gives_zero_rate_witness :
  exists R,
    @build_summary example_runtime self0 world_boxes_only "s1" = Ok R
    /\ py_getitem (project R) "completed_tasks" = Ok (VInt 2)
    /\ py_getitem (project R) "completion_rate" = Ok (VInt 0).
Proof.
  destruct (@no_task_word_gives_zero_rate example_runtime self0
              world_boxes_only "s1" "[x] one [x] two"
              ltac:(vm_compute; reflexivity) ltac:(vm_compute; reflexivity)
              ltac:(vm_compute; reflexivity)) as (R & Hb & Hp & _).
  exists R. split; [exact Hb|]. rewrite Hp. split; reflexivity.
Defined.

Lemma default_project_keys k :
  In k (map fst default_project) -> In k ProjectStatus_fields.
Proof. cbn. intuition. Qed.

(** X10. The missing default can be supplied by the config: with no
    AGENTS.md, a config object whose keys are all fields of
    [ProjectStatus] and that gives [completion_rate] makes
    [_load_project_status] return, with that rate. *)
Theorem config_supplies_rate self w cfg r :
  path_exists w (os_path_join (project_root self) "AGENTS.md") = false ->
  read_json w (config_path self) = Ok (VDict cfg) ->
  (forall k, In k (map fst cfg) -> In k ProjectStatus_fields) ->
  dict_get cfg "completion_rate" = Some r ->
  exists p, _load_project_status self w = Ok p /\ completion_rate p = r.
Proof.
  intros Ha Hr Hkeys Hrate.
  destruct (load_project_status_config _ _ _ Hr) as [Heq Hnd].
  assert (Hag : agents_project self w = default_project).
  { unfold agents_project. now rewrite Ha. }
  rewrite Hag in Heq.
  destruct (ProjectStatus_new_ok
              (fold_left (fun d kv => dict_set d (fst kv) (snd kv)) cfg
                 default_project)) as [p Hp].
  - unfold keywords_known. apply forallb_forall. intros [k0 v0] Hin.
    apply existsb_exists. exists k0. split; [|apply String.eqb_refl].
    assert (Hk : In k0 (map fst (fold_left
                  (fun d kv => dict_set d (fst kv) (snd kv)) cfg default_project))).
    { apply in_map_iff. now exists (k0, v0). }
    destruct (dict_fold_keys _ _ _ Hk) as [Hd|Hc];
      [now apply default_project_keys|now apply Hkeys].
  - intros k Hk. apply dict_get_fold_some.
    cbn [ProjectStatus_fields In] in Hk.
    destruct Hk as [<-|[<-|[<-|[<-|[<-|[<-|[<-|[]]]]]]]];
      try (left; eexists; reflexivity).
    right. eapply dict_get_In; eauto.
  - exists p. split; [now rewrite Heq|].
    pose proof (ProjectStatus_new_fields _ _ Hp "completion_rate" r
                  (dict_get_fold_in _ _ _ _ Hnd Hrate)) as Hf.
    destruct (getitem_asdict_ProjectStatus p) as (_ & _ & _ & _ & _ & Hc & _).
    rewrite Hc in Hf. now inversion Hf.
Qed.

Lemma config_supplies_rate_witness :
  exists p,
    _load_project_status self0 world_config_rate = Ok p
    /\ completion_rate p = VFloat 0.25.
Proof.
  apply (config_supplies_rate self0 world_config_rate config_with_rate).
  - vm_compute. reflexivity.
  - vm_compute. reflexivity.
  - cbn. intuition; subst; cbn; tauto.
  - reflexivity.
Defined.

(** ** Saving and recovering *)

Lemma str_app_inv_l (a b c : string) : (a ++ b = a ++ c)%string -> b = c.
Proof.
  induction a as [|x a IH]; cbn; [auto|]. intros Heq. inversion Heq. auto.
Qed.

Lemma artifact_paths_differ self base :
  summary_json_path self base <> summary_md_path self base.
Proof.
  unfold summary_json_path, summary_md_path, os_path_join.
  set (b := str_or base (project_root self)).
  cbn [String.prefix].
  destruct (String.eqb b ""); [discriminate|].
  destruct (String.eqb _ "/"); intros Heq; apply str_app_inv_l in Heq.
  - discriminate.
  - apply (str_app_inv_l "/") in Heq. discriminate.
Qed.

Lemma write_file_inv w parent p e w' :
  write_file w parent p e = Ok w' ->
  fs w' = <[p := e]> (fs w) /\ cwd w' = cwd w /\ utc_now w' = utc_now w.
Proof.
  unfold write_file. intros Hw.
  destruct (fs w !! parent) as [[| | |]|]; try discriminate;
    destruct (fs w !! p) as [[| | |]|]; try discriminate;
    inversion Hw; subst; cbn; auto.
Qed.

(** X11. [save] touches the two artifacts and nothing else: every other
    path of the file system is as before, whatever the outcome.  When it
    succeeds, each format present in the outputs is in its file, a JSON
    output under session_summary.json and a narrative under
    session_summary.md, and the paths are reported. *)
Theorem save_frame self w outputs base r w' :
  save self w outputs base = (r, w') ->
  (forall p,
     p <> summary_json_path self base -> p <> summary_md_path self base ->
     fs w' !! p = fs w !! p)
  /\ (forall saved js,
        r = Ok saved -> out_json outputs = Some js ->
        fs w' !! summary_json_path self base = Some (Json js)
        /\ saved_json saved = Some (summary_json_path self base))
  /\ (forall saved text,
        r = Ok saved -> out_text outputs = Some text ->
        fs w' !! summary_md_path self base = Some (Text text)
        /\ saved_text saved = Some (summary_md_path self base)).
Proof.
  unfold save. fold (summary_json_path self base) (summary_md_path self base).
  pose proof (artifact_paths_differ self base) as Hdiff.
  set (pj := summary_json_path self base) in *.
  set (pm := summary_md_path self base) in *.
  intros Hs.
  destruct (out_json outputs) as [js|]; destruct (out_text outputs) as [tx|];
    repeat match type of Hs with
    | context [write_file ?w0 ?d ?q ?e] =>
        let E := fresh "E" in
        destruct (write_file w0 d q e) eqn:E;
        [apply write_file_inv in E as (E & _ & _)|clear E]
    end;
    inversion Hs; subst; clear Hs;
    repeat split; intros;
    repeat match goal with
    | H : Raise _ = Ok _ |- _ => discriminate H
    | H : None = Some _ |- _ => discriminate H
    | H : Ok _ = Ok _ |- _ => inversion H; subst; clear H
    | H : Some _ = Some _ |- _ => inversion H; subst; clear H
    end;
    cbn [saved_json saved_text];
    repeat match goal with
    | F : fs _ = _ |- _ => rewrite F; clear F
    end;
    rewrite ?lookup_insert_ne by congruence;
    rewrite ?lookup_insert_eq; reflexivity.
Qed.

Lemma save_frame_witness :
  fs (snd (save self0 world_30_45
             {| out_json := Some [TNull]; out_text := Some "text" |} None))
    !! "/proj/AGENTS.md"
  = fs world_30_45 !! "/proj/AGENTS.md".
Proof.
  apply (proj1 (save_frame self0 world_30_45
                  {| out_json := Some [TNull]; out_text := Some "text" |} None
                  _ _ eq_refl)).
  - vm_compute. discriminate.
  - vm_compute. discriminate.
Defined.

(** X12. [save] is not atomic over the two artifacts.  The JSON file is
    written first; when the narrative then cannot be written, here because
    a directory sits at its path, [save] raises and the JSON artifact is
    already in place. *)
Theorem save_keeps_json_on_text_failure self w js text base :
  fs w !! str_or base (project_root self) = Some Dir ->
  fs w !! summary_json_path self base = None ->
  fs w !! summary_md_path self base = Some Dir ->
  exists w',
    save self w {| out_json := Some js; out_text := Some text |} base
    = (Raise OSError, w')
    /\ fs w' !! summary_json_path self base = Some (Json js).
Proof.
  intros Hb Hj Hm.
  pose proof (artifact_paths_differ self base) as Hdiff.
  unfold save. fold (summary_json_path self base) (summary_md_path self base).
  cbn [out_json out_text]. unfold write_file at 1. rewrite Hb, Hj.
  unfold write_file. cbn [fs].
  rewrite (lookup_insert_ne (fs w) (summary_json_path self base)
             (str_or base (project_root self))) by congruence.
  rewrite Hb.
  rewrite (lookup_insert_ne (fs w) (summary_json_path self base)
             (summary_md_path self base)) by exact Hdiff.
  rewrite Hm. eexists. split; [reflexivity|]. cbn [fs].
  apply lookup_insert_eq.
Qed.

Lemma save_keeps_json_on_text_failure_witness :
  exists w',
    save self0 world_md_is_dir
      {| out_json := Some [TNull]; out_text := Some "text" |} None
    = (Raise OSError, w')
    /\ fs w' !! "/proj/session_summary.json" = Some (Json [TNull]).
Proof.
  apply (save_keeps_json_on_text_failure self0 world_md_is_dir [TNull] "text"
           None); vm_compute; reflexivity.
Defined.

(** X13. A format other than "json", "text" and "both" is not rejected:
    once the record is assembled [generate] returns outputs with neither
    format, and [save] on them writes no file and reports no path. *)
Theorem unknown_format_writes_nothing `{PyRuntime} self w sid fmt inc mw R base :
  build_summary self w sid = Ok R ->
  str_in fmt ["json"; "text"; "both"] = false ->
  generate self w sid fmt inc mw = Ok {| out_json := None; out_text := None |}
  /\ save self w {| out_json := None; out_text := None |} base
     = (Ok {| saved_json := None; saved_text := None |}, w).
Proof.
  intros Hb Hf. split; [|reflexivity].
  unfold generate. rewrite Hb. cbn [rbind].
  unfold str_in in *. cbn [existsb] in *.
  destruct (String.eqb fmt "json"); [discriminate|].
  destruct (String.eqb fmt "text"); [discriminate|].
  destruct (String.eqb fmt "both"); [discriminate|]. reflexivity.
Qed.

Lemma unknown_format_writes_nothing_witness :
  @generate example_runtime self0 world_30_45 "s1" "yaml" None 2000
  = Ok {| out_json := None; out_text := None |}
  /\ save self0 world_30_45 {| out_json := None; out_text := None |} None
     = (Ok {| saved_json := None; saved_text := None |}, world_30_45).
Proof.
  apply (@unknown_format_writes_nothing example_runtime self0 world_30_45
           "s1" "yaml" None 2000 summary_30_45 None
           (@build_summary_30_45 example_runtime)).
  reflexivity.
Defined.

Lemma dict_get_perm d d' k :
  Permutation d d' -> List.NoDup (map fst d) -> dict_get d k = dict_get d' k.
Proof.
  induction 1 as [|[k0 v0] l l' Hp IH|[k1 v1] [k2 v2] l|l l' l'' H1 IH1 H2 IH2];
    intros Hnd.
  - reflexivity.
  - cbn [dict_get]. inversion Hnd; subst. now rewrite IH.
  - cbn [dict_get]. cbn [map fst] in Hnd.
    inversion Hnd as [|? ? Hnotin _]; subst.
    destruct (String.eqb_spec k1 k) as [->|H1k];
      destruct (String.eqb_spec k2 k) as [->|H2k]; try reflexivity.
    exfalso. apply Hnotin. now left.
  - rewrite IH1 by exact Hnd. apply IH2.
    eapply Permutation_NoDup; [|exact Hnd]. now apply Permutation_map.
Qed.

Lemma keywords_known_perm fields d d' :
  Permutation d d' -> keywords_known fields d = keywords_known fields d'.
Proof.
  intros Hp. unfold keywords_known.
  destruct (forallb _ d) eqn:E1; destruct (forallb _ d') eqn:E2;
    try reflexivity.
  - rewrite forallb_forall in E1.
    assert (forallb (fun kv => existsb (String.eqb (fst kv)) fields) d' = true).
    { apply forallb_forall. intros x Hx. apply E1.
      eapply Permutation_in; [symmetry; exact Hp|exact Hx]. }
    congruence.
  - rewrite forallb_forall in E2.
    assert (forallb (fun kv => existsb (String.eqb (fst kv)) fields) d = true).
    { apply forallb_forall. intros x Hx. apply E2.
      eapply Permutation_in; [exact Hp|exact Hx]. }
    congruence.
Qed.

Lemma ContextSummary_new_perm d d' :
  Permutation d d' -> List.NoDup (map fst d) ->
  ContextSummary_new (VDict d) = ContextSummary_new (VDict d').
Proof.
  intros Hp Hnd. unfold ContextSummary_new.
  rewrite (keywords_known_perm _ _ _ Hp).
  now rewrite !(fun k => dict_get_perm d d' k Hp Hnd).
Qed.

(** X14. [recover] does not depend on the order of the fields in the file:
    two artifacts whose decoded objects hold the same fields in different
    orders are recovered to the same result. *)
Theorem recover_ignores_field_order self w1 w2 base ts1 ts2 d1 d2 :
  fs w1 !! summary_json_path self base = Some (Json ts1) ->
  fs w2 !! summary_json_path self base = Some (Json ts2) ->
  json_loads ts1 = Ok (VDict d1) ->
  json_loads ts2 = Ok (VDict d2) ->
  Permutation d1 d2 ->
  recover self w1 base = recover self w2 base.
Proof.
  intros F1 F2 L1 L2 Hp.
  unfold recover, path_exists, read_json.
  fold (summary_json_path self base). rewrite F1, F2, L1, L2.
  cbn [negb rbind]. rewrite (ContextSummary_new_perm d1 d2 Hp); [reflexivity|].
  apply json_loads_wf in L1. now inversion L1.
Qed.

Lemma recover_ignores_field_order_witness :
  recover self0 (world_artifact (_to_json summary_30_45)) None
  = recover self0 (world_artifact (json_dumps (VDict reversed_artifact))) None.
Proof.
  eapply (recover_ignores_field_order self0 _ _ None).
  - vm_compute. reflexivity.
  - vm_compute. reflexivity.
  - vm_compute. reflexivity.
  - vm_compute. reflexivity.
  - apply Permutation_rev.
Defined.

(** X15. An artifact that decodes to something other than an object, or to
    an object with a key that is no field of the record, is refused with
    [TypeError]: [recover] drops no unknown key. *)
Theorem recover_rejects_other_shapes self w base ts v :
  fs w !! summary_json_path self base = Some (Json ts) ->
  json_loads ts = Ok v ->
  (forall d, v <> VDict d)
  \/ (exists d k x,
        v = VDict d /\ dict_get d k = Some x
        /\ ~ In k ContextSummary_fields) ->
  recover self w base = Raise TypeError.
Proof.
  intros F L Hshape. unfold recover, path_exists, read_json.
  fold (summary_json_path self base). rewrite F, L. cbn [negb rbind].
  destruct Hshape as [Hnd|(d & k & x & -> & Hg & Hnot)].
  - destruct v; try reflexivity. now destruct (Hnd entries).
  - unfold ContextSummary_new.
    destruct (keywords_known ContextSummary_fields d) eqn:Hk; [|reflexivity].
    exfalso. apply Hnot.
    eapply keywords_known_In; [exact Hk|eapply dict_get_In; eauto].
Qed.

Lemma recover_rejects_other_shapes_witness :
  recover self0 (world_artifact [TLBracket; TRBracket]) None = Raise TypeError.
Proof.
  apply (recover_rejects_other_shapes self0 _ None [TLBracket; TRBracket]
           (VList [])).
  - vm_compute. reflexivity.
  - reflexivity.
  - left. discriminate.
Defined.

(** X16. The structured round trip does not depend on how the record was
    made, and [recover] checks no types: whatever JSON values the eight
    fields hold, the artifact of a record is recovered to that very
    record. *)
Theorem recover_any_record self w base R :
  wf_val (asdict_ContextSummary R) ->
  fs w !! summary_json_path self base = Some (Json (_to_json R)) ->
  recover self w base = Ok (Some R).
Proof.
  intros Hwf F. unfold recover, path_exists, read_json.
  fold (summary_json_path self base). rewrite F. cbn [negb].
  unfold _to_json. rewrite json_loads_dumps by exact Hwf. cbn [rbind].
  now rewrite ContextSummary_new_asdict.
Qed.

Lemma untyped_summary_wf : wf_val (asdict_ContextSummary untyped_summary).
Proof.
  constructor.
  - cbn. repeat (constructor; [cbn; intuition discriminate|]). constructor.
  - repeat (apply List.Forall_cons); cbn; repeat constructor.
Qed.

Lemma recover_any_record_witness :
  recover self0 (world_artifact (_to_json untyped_summary)) None
  = Ok (Some untyped_summary).
Proof.
  apply (recover_any_record self0 _ None untyped_summary untyped_summary_wf).
  vm_compute. reflexivity.
Defined.

(** ** The usage estimate *)

(** X17. The usage estimate is capped: [_estimate_token_usage] never
    returns a value above 1.0, however large the resident set is and also
    when psutil fails. *)
Theorem usage_never_above_one w :
  (1 <? _estimate_token_usage w)%float = false.
Proof.
  unfold _estimate_token_usage.
  destruct (psutil_rss w) as [rss|e]; cbn [rbind try_except]; [|reflexivity].
  destruct (int_truediv rss 1024) as [mb|e]; cbn [rbind try_except];
    [|reflexivity].
  destruct (1 <? mb / 1024 * 100 / 200000)%float eqn:E; [reflexivity|exact E].
Qed.

(** ** The blocks of the narrative *)

Lemma str_app_assoc (a b c : string) : ((a ++ b) ++ c = a ++ (b ++ c))%string.
Proof.
  induction a as [|x a IH]; [reflexivity|].
  change (String x ((a ++ b) ++ c) = String x (a ++ (b ++ c)))%string.
  now f_equal.
Qed.

Lemma format_percent_suffix v pct :
  format_percent v = Ok pct -> exists body, pct = (body ++ "%")%string.
Proof.
  unfold format_percent, format_percent_float. intros Hf.
  destruct v; try discriminate.
  - inversion Hf. eauto.
  - destruct (float_of_Z z); inversion Hf. eauto.
  - inversion Hf. eauto.
Qed.

(** X18. Every Project Status block that is built shows the completion
    with two percent signs.  The block adds its heading, the title line and
    the phase line to the lines it is given, and its fourth line is the
    Completion line: the rate is formatted with the percent format, which
    ends in "%", and the line adds another one before the closing
    parenthesis.  At most the Pending line follows. *)
Theorem completion_line_double_percent `{PyRuntime} R lines out :
  text_project_status R lines = Ok out ->
  exists n d ph c t body tail,
    out = lines
          ++ [(nl ++ "## Project Status")%string;
              ("**" ++ n ++ "** - " ++ d)%string;
              ("- Current Phase: Phase " ++ ph)%string;
              ("- Completion: " ++ c ++ "/" ++ t ++ " tasks (" ++ body
               ++ "%%)")%string]
          ++ tail
    /\ (length tail <= 1)%nat.
Proof.
  unfold text_project_status. intros Ht.
  destruct (py_getitem (project R) "name") as [n|]; [|discriminate].
  destruct (py_getitem (project R) "description") as [d|]; [|discriminate].
  destruct (py_getitem (project R) "phase") as [ph|]; [|discriminate].
  destruct (py_getitem (project R) "completed_tasks") as [c|]; [|discriminate].
  destruct (py_getitem (project R) "total_tasks") as [t|]; [|discriminate].
  destruct (py_getitem (project R) "completion_rate") as [r|]; [|discriminate].
  cbn [rbind] in Ht.
  destruct (format_percent r) as [pct|] eqn:Ep; [|discriminate].
  cbn [rbind] in Ht.
  destruct (format_percent_suffix _ _ Ep) as [body ->].
  exists (py_str n), (py_str d), (py_str ph), (py_str c), (py_str t), body.
  assert (Hline :
    ("- Completion: " ++ py_str c ++ "/" ++ py_str t ++ " tasks ("
       ++ (body ++ "%") ++ "%)")%string
    = ("- Completion: " ++ py_str c ++ "/" ++ py_str t ++ " tasks (" ++ body
       ++ "%%)")%string).
  { rewrite !str_app_assoc. reflexivity. }
  rewrite Hline in Ht. clear Hline.
  destruct (py_getitem (project R) "pending_tasks") as [pt|]; [|discriminate].
  cbn [rbind] in Ht. unfold append in Ht.
  destruct (py_truthy pt).
  - destruct (py_slice_to 3 pt) as [f3|]; [|discriminate]. cbn [rbind] in Ht.
    destruct (py_iter f3) as [ts|]; [|discriminate]. cbn [rbind] in Ht.
    destruct (map_result _ ts) as [names|]; [|discriminate].
    cbn [rbind] in Ht.
    destruct (py_join ", " names) as [j|]; [|discriminate].
    cbn [rbind] in Ht. inversion Ht; subst.
    exists [("- Pending: " ++ j)%string]. split; [|cbn; lia].
    rewrite <- !app_assoc. reflexivity.
  - inversion Ht; subst. exists []. split; [|cbn; lia].
    rewrite <- !app_assoc. reflexivity.
Qed.

Lemma completion_line_double_percent_witness :
  exists n d ph c t body tail,
    ["header"; (nl ++ "## Project Status")%string;
     "**Project** - A coding project"; "- Current Phase: Phase 1";
     "- Completion: 30/45 tasks (67%%)"]
    = ["header"]
      ++ [(nl ++ "## Project Status")%string;
          ("**" ++ n ++ "** - " ++ d)%string;
          ("- Current Phase: Phase " ++ ph)%string;
          ("- Completion: " ++ c ++ "/" ++ t ++ " tasks (" ++ body
           ++ "%%)")%string]
      ++ tail
    /\ (length tail <= 1)%nat.
Proof.
  apply (@completion_line_double_percent example_runtime summary_30_45
           ["header"]).
  vm_compute. reflexivity.
Defined.

Lemma for_each_items `{PyRuntime} l : forall lines,
  for_each (map VStr l) item_line lines
  = Ok (lines ++ map (fun x => ("- " ++ x)%string) l).
Proof.
  induction l as [|x l IH]; intros lines; cbn [map for_each].
  - now rewrite app_nil_r.
  - unfold item_line at 1. cbn [rbind py_str]. rewrite IH.
    unfold append. now rewrite <- app_assoc.
Qed.

Lemma listing_vstrs `{PyRuntime} d key title n l lines :
  py_getitem d key = Ok (vstrs l) ->
  listing d key title n lines = Ok (lines ++ bullets title n l).
Proof.
  intros Hg. unfold listing. rewrite Hg. cbn [rbind].
  destruct l as [|x l']; cbn [vstrs map py_truthy bullets].
  - now rewrite app_nil_r.
  - unfold vstrs. cbn [py_slice_to rbind].
    rewrite firstn_map. cbn [py_iter rbind].
    rewrite for_each_items. unfold append. now rewrite <- app_assoc.
Qed.

Lemma py_join_vstrs sep l : py_join sep (map VStr l) = Ok (str_join sep l).
Proof.
  unfold py_join.
  assert (Hs : py_join_strs (map VStr l) = Ok l).
  { induction l as [|x l IH]; cbn [map py_join_strs]; [reflexivity|].
    now rewrite IH. }
  now rewrite Hs.
Qed.

Lemma getitem_asdict_CodeContext c :
  py_getitem (asdict_CodeContext c) "current_files" = Ok (vstrs (current_files c))
  /\ py_getitem (asdict_CodeContext c) "recent_changes"
     = Ok (vstrs (recent_changes c))
  /\ py_getitem (asdict_CodeContext c) "architecture_patterns"
     = Ok (vstrs (architecture_patterns c)).
Proof. repeat split. Qed.

Lemma bullets_length title n l : (length (bullets title n l) <= S n)%nat.
Proof.
  destruct l as [|x l]; cbn [bullets length]; [lia|].
  rewrite length_map, length_take. lia.
Qed.

Lemma code_context_block `{PyRuntime} R c lines :
  code_context R = asdict_CodeContext c ->
  text_code_context R lines = Ok (lines ++ code_context_lines c).
Proof.
  intros Hc. destruct (getitem_asdict_CodeContext c) as (Hf & Hr & Ha).
  unfold text_code_context. rewrite Hc.
  change (py_truthy (asdict_CodeContext c)) with true. cbv iota.
  rewrite (listing_vstrs _ _ _ _ _ _ Hf). cbn [rbind].
  rewrite (listing_vstrs _ _ _ _ _ _ Hr). cbn [rbind].
  rewrite Ha. cbn [rbind]. unfold code_context_lines, append.
  destruct (architecture_patterns c) as [|a ps] eqn:Ea.
  - cbn [vstrs map py_truthy]. now rewrite <- !app_assoc, !app_nil_r.
  - unfold vstrs. cbn [map py_truthy py_iter rbind].
    rewrite <- (map_cons VStr a ps), py_join_vstrs. cbn [rbind].
    now rewrite <- !app_assoc.
Qed.

(** X19. On every record that [generate] assembles, the Code Context block
    succeeds and emits its heading, then at most five current files, at
    most three recent changes, and the architecture patterns joined on
    one line, each part only when its list is not empty: at most twelve
    lines. *)
Theorem assembled_code_context_block `{PyRuntime} self w sid R lines :
  build_summary self w sid = Ok R ->
  text_code_context R lines
  = Ok (lines ++ code_context_lines (_load_code_context self w))
  /\ (length (code_context_lines (_load_code_context self w)) <= 12)%nat.
Proof.
  intros Hb.
  destruct (build_summary_inv _ _ _ _ Hb) as (p & cf & kc & _ & _ & _ & ->).
  split; [now apply code_context_block|].
  unfold code_context_lines. rewrite !length_app.
  pose proof (bullets_length "📁 Current Files:" 5
                (current_files (_load_code_context self w))).
  pose proof (bullets_length (nl ++ "📝 Recent Changes:")%string 3
                (recent_changes (_load_code_context self w))).
  destruct (architecture_patterns _); cbn [length]; lia.
Qed.

Lemma assembled_code_context_block_witness :
  @text_code_context example_runtime summary_30_45 []
  = Ok ([] ++ [(nl ++ "## Code Context")%string; "📁 Current Files:";
              "- config/project.json";
              (nl ++ "📐 Architecture: config, OpenCode workflow")%string]).
Proof.
  apply (proj1 (@assembled_code_context_block example_runtime self0 world_30_45
                  "s1" summary_30_45 [] (@build_summary_30_45 example_runtime))).
Defined.

(** X20. The conversation history of every assembled record is empty, and
    yet its block is not skipped: the record holds a dict with three empty
    lists, which is true as a condition, so the Conversation History block
    emits its heading and nothing under it. *)
Theorem assembled_history_heading_only `{PyRuntime} self w sid R lines :
  build_summary self w sid = Ok R ->
  conversation_history R
  = VDict [("key_discussions", VList []); ("confirmed_items", VList []);
           ("pending_confirmations", VList [])]
  /\ text_conversation_history R lines
     = Ok (lines ++ [(nl ++ "## Conversation History")%string]).
Proof.
  intros Hb.
  destruct (build_summary_inv _ _ _ _ Hb) as (p & cf & kc & _ & _ & _ & ->).
  split; reflexivity.
Qed.

Lemma assembled_history_heading_only_witness :
  @text_conversation_history example_runtime summary_30_45 []
  = Ok ([] ++ [(nl ++ "## Conversation History")%string]).
Proof.
  apply (proj2 (@assembled_history_heading_only example_runtime self0
                  world_30_45 "s1" summary_30_45 []
                  (@build_summary_30_45 example_runtime))).
Defined.

(** X21. On every assembled record the Recovery Instructions block
    succeeds and emits six lines: its two headings, README.md and
    AGENTS.md as bullets, then the continue-from and the key-context
    strings that the record holds. *)
Theorem assembled_recovery_block `{PyRuntime} self w sid R lines :
  build_summary self w sid = Ok R ->
  exists cf kc,
    py_getitem (recovery_instructions R) "continue_from" = Ok (VStr cf)
    /\ py_getitem (recovery_instructions R) "key_context" = Ok (VStr kc)
    /\ text_recovery_instructions R lines
       = Ok (lines ++ [(nl ++ "## Recovery Instructions")%string;
                       (nl ++ "📖 Read First:")%string;
                       "- README.md"; "- AGENTS.md";
                       (nl ++ "🚀 Continue from: " ++ cf)%string;
                       (nl ++ "🔑 Key Context: " ++ kc)%string]).
Proof.
  intros Hb.
  destruct (build_summary_inv _ _ _ _ Hb) as (p & cf & kc & _ & _ & _ & ->).
  exists cf, kc. split; [reflexivity|]. split; [reflexivity|].
  unfold text_recovery_instructions. cbn. unfold append.
  rewrite <- !app_assoc. reflexivity.
Qed.

Lemma assembled_recovery_block_witness :
  exists cf kc,
    py_getitem (recovery_instructions summary_30_45) "continue_from"
    = Ok (VStr cf)
    /\ py_getitem (recovery_instructions summary_30_45) "key_context"
       = Ok (VStr kc)
    /\ @text_recovery_instructions example_runtime summary_30_45 []
       = Ok ([] ++ [(nl ++ "## Recovery Instructions")%string;
                    (nl ++ "📖 Read First:")%string;
                    "- README.md"; "- AGENTS.md";
                    (nl ++ "🚀 Continue from: " ++ cf)%string;
                    (nl ++ "🔑 Key Context: " ++ kc)%string]).
Proof.
  apply (@assembled_recovery_block example_runtime self0 world_30_45 "s1"
           summary_30_45 [] (@build_summary_30_45 example_runtime)).
Defined.

(** ** What the assembly does not check *)

(** X22. The pending tasks of the config are not validated when they are
    loaded.  When the first of them is an object without "id" or without
    "name", the project status is loaded and the assembly then fails
    with [KeyError] while it builds the continue-from string; [generate]
    fails with it for every format, the JSON format included, before
    anything is rendered. *)
Theorem nameless_first_task_raises `{PyRuntime} self w sid p t rest :
  _load_project_status self w = Ok p ->
  pending_tasks p = VList (VDict t :: rest) ->
  dict_get t "id" = None \/ dict_get t "name" = None ->
  build_summary self w sid = Raise KeyError
  /\ forall fmt inc mw, generate self w sid fmt inc mw = Raise KeyError.
Proof.
  intros Hp Hpt Hmiss.
  assert (Hb : build_summary self w sid = Raise KeyError).
  { unfold build_summary. rewrite Hp. cbn [rbind].
    unfold _get_continue_from. rewrite Hpt.
    cbn [py_truthy py_first rbind py_getitem].
    destruct Hmiss as [-> | Hn]; [reflexivity|].
    destruct (dict_get t "id"); cbn [rbind]; [|reflexivity].
    now rewrite Hn. }
  split; [exact Hb|]. intros fmt inc mw. unfold generate. now rewrite Hb.
Qed.

Lemma nameless_first_task_raises_witness :
  @build_summary example_runtime self0 (world_config config_nameless_task) "s1"
  = Raise KeyError
  /\ forall fmt inc mw,
       @generate example_runtime self0 (world_config config_nameless_task)
         "s1" fmt inc mw = Raise KeyError.
Proof.
  apply (@nameless_first_task_raises example_runtime self0
           (world_config config_nameless_task) "s1" _
           [("id", VInt 1)] []
           ltac:(vm_compute; reflexivity) eq_refl
           (or_intror eq_refl)).
Defined.

(** X23. The rate of the config is not validated either.  A
    [completion_rate] that is a string passes the constructor, and
    [_get_key_context] raises [ValueError] when it formats the rate as a
    percentage.  The assembly therefore never returns a record: when the
    continue-from string can be built (there is no pending task, or the
    first one has an id and a name) it fails with [ValueError], and so does
    [generate] for every format; when [_get_continue_from] raises, its
    exception comes first. *)
Theorem string_rate_raises `{PyRuntime} self w sid p s :
  _load_project_status self w = Ok p ->
  completion_rate p = VStr s ->
  _get_key_context p = Raise ValueError
  /\ (forall cf, _get_continue_from p = Ok cf ->
       build_summary self w sid = Raise ValueError
       /\ forall fmt inc mw,
            generate self w sid fmt inc mw = Raise ValueError)
  /\ (forall e, _get_continue_from p = Raise e ->
       build_summary self w sid = Raise e)
  /\ is_raise (build_summary self w sid).
Proof.
  intros Hp Hr.
  assert (Hk : _get_key_context p = Raise ValueError).
  { unfold _get_key_context. rewrite Hr. reflexivity. }
  assert (Hok : forall cf, _get_continue_from p = Ok cf ->
                build_summary self w sid = Raise ValueError).
  { intros cf Hcf. unfold build_summary. rewrite Hp. cbn [rbind].
    rewrite Hcf. cbn [rbind]. now rewrite Hk. }
  assert (Hraise : forall e, _get_continue_from p = Raise e ->
                   build_summary self w sid = Raise e).
  { intros e He. unfold build_summary. rewrite Hp. cbn [rbind].
    now rewrite He. }
  split; [exact Hk|]. split; [|split; [exact Hraise|]].
  - intros cf Hcf. split; [now apply (Hok cf)|].
    intros fmt inc mw. unfold generate. now rewrite (Hok cf Hcf).
  - destruct (_get_continue_from p) as [cf|e] eqn:E.
    + now rewrite (Hok cf).
    + now rewrite (Hraise e).
Qed.

Lemma string_rate_raises_witness :
  @build_summary example_runtime self0
    (world_config config_rate_string_task) "s1"
  = Raise ValueError
  /\ forall fmt inc mw,
       @generate example_runtime self0
         (world_config config_rate_string_task) "s1" fmt inc mw
       = Raise ValueError.
Proof.
  apply (proj1 (proj2
           (@string_rate_raises example_runtime self0
              (world_config config_rate_string_task) "s1" _ "67%"
              ltac:(vm_compute; reflexivity) eq_refl))
           "Task 2: Write the parser").
  vm_compute. reflexivity.
Defined.

Lemma In_take {A : Type} n (l : list A) x : In x (firstn n l) -> In x l.
Proof.
  revert l. induction n as [|n IH]; intros [|y l]; cbn; try tauto.
  intros [->|Hin]; auto.
Qed.

Lemma file_hits_are_files self w pattern f :
  In f (file_hits self w pattern) ->
  is_file w (os_path_join (project_root self) f) = true.
Proof. unfold file_hits. intros Hin. now apply filter_In in Hin. Qed.

(** X24. [_list_current_files] lists regular files only: every entry is a
    path that one of the four patterns matched and that is a file, so a
    directory matched by src/**/* is never listed. *)
Theorem current_files_are_files self w :
  Forall (fun f => In f (candidate_files self w)
                   /\ is_file w (os_path_join (project_root self) f) = true)
         (_list_current_files self w).
Proof.
  apply Forall_forall. intros f Hf. apply list_elem_of_In in Hf.
  assert (Hc : In f (candidate_files self w)).
  { rewrite list_current_files_eq in Hf. apply In_take in Hf.
    unfold candidate_files. apply in_or_app.
    apply in_app_or in Hf as [Hs|Hc]; [left; now apply In_take in Hs|now right]. }
  split; [exact Hc|].
  unfold candidate_files, source_candidates, config_candidates in Hc.
  cbn [src_patterns config_patterns flat_map] in Hc.
  rewrite !app_nil_r in Hc.
  repeat (apply in_app_or in Hc as [Hc|Hc]);
    eapply file_hits_are_files; exact Hc.
Qed.
